(** * Course Selling API: a shallow embedding of [main.py] and [schemas.py]

    The development follows the layout of the repository.

    - [Bson], [Py]: the pieces of the runtime the handlers call directly
      ([ObjectId], [round], [list.sort], slicing of a [str]).
    - [Course], [Lesson], [Order], [OrderIn], [CourseOut], [LessonOut],
      [AdminSummary]: the pydantic models of [schemas.py] and [main.py],
      with the validation of a decoded JSON body against them.
    - [Database] and the collection operations ([find], [find_one],
      [count_documents], [insert_one], [update_one], [delete_one]).
    - [create_document], [get_documents]: the adapter of [database.py].
    - the handlers of [main.py], one definition per route function.

    Every document the program writes is the dump of a validated model, so
    a collection is a list of typed documents in insertion order, each paired
    with the [_id] the store gave it.  Handlers are functions from the
    database to a result and the database after the call; what a handler
    returns is the value of the Python function, before the framework
    renders it.  [db] stands for a live connection: the driver acknowledges
    what it is sent, unless the document cannot be encoded. *)

From Stdlib Require Import ZArith List String Ascii Bool Floats.
From Stdlib Require Import Sorted Permutation Lia Eqdep_dec.
Import ListNotations.

Set Warnings "-inexact-float".
Set Warnings "-register-all".

Local Open Scope string_scope.
Local Open Scope list_scope.
Local Open Scope Z_scope.

(** ** Decoded JSON *)

(** A value as [json.loads] gives it.  An object is a [dict]; it is kept
    as a list of entries, in which the first entry of a key gives the value
    the [dict] holds under that key. *)
Inductive json : Type :=
| JNull
| JBool (b : bool)
| JInt (n : Z)
| JFloat (x : float)
| JStr (s : string)
| JArray (items : list json)
| JObject (members : list (string * json)).

Fixpoint assoc {A : Type} (k : string) (l : list (string * A)) : option A :=
  match l with
  | [] => None
  | (k', v) :: rest => if String.eqb k k' then Some v else assoc k rest
  end.

(** No number in the value is a NaN or an infinity: such a value can be
    rendered as JSON by an encoder that refuses them. *)
Fixpoint finite (v : json) : bool :=
  match v with
  | JFloat x => PrimFloat.is_finite x
  | JArray items => forallb finite items
  | JObject members => forallb (fun kv => finite (snd kv)) members
  | _ => true
  end.

(** ** Exceptions and results *)

(** One entry of the error list of a request that fails validation: where,
    what, and the input that was refused. *)
Record error_detail : Type := mk_error {
  loc : string;
  msg : string;
  input : json
}.

(** The exceptions a handler can end with.  [HTTPException] is raised by the
    handlers themselves; [RequestValidationError] is what the framework
    raises when a request body does not fit the handler's parameter model;
    [ValidationError] is pydantic's error when a model is constructed inside
    a handler; [InvalidId] is bson's error for a malformed identifier;
    [OverflowError] is raised when a document holds an integer that BSON
    cannot encode. *)
Inductive exn : Type :=
| HTTPException (status_code : Z) (detail : string)
| RequestValidationError (errors : list error_detail)
| ValidationError (loc : string) (msg : string)
| InvalidId (oid : string)
| OverflowError (msg : string).

Inductive result (A : Type) : Type :=
| Ok (a : A)
| Raise (e : exn).

Arguments Ok {A} a.
Arguments Raise {A} e.

(** The status code of the response the framework sends for an exception
    that leaves a handler.  An [HTTPException] carries its own code.  A
    request that fails validation is answered with 422 and the list of its
    errors, each with the refused input; when such an input holds a NaN or
    an infinity the list cannot be rendered and the answer is an internal
    server error, as it is for any other exception. *)
Definition response_status (e : exn) : Z :=
  match e with
  | HTTPException status_code _ => status_code
  | RequestValidationError errors =>
      if forallb (fun d => finite (input d)) errors then 422 else 500
  | ValidationError _ _ => 500
  | InvalidId _ => 500
  | OverflowError _ => 500
  end.

Definition bind_result {A B : Type} (r : result A) (k : A -> result B)
  : result B :=
  match r with
  | Ok a => k a
  | Raise e => Raise e
  end.

(** [try: r except Exception: raise e] *)
Definition try_except {A : Type} (r : result A) (e : exn) : result A :=
  match r with
  | Ok a => Ok a
  | Raise _ => Raise e
  end.

(** A [for] loop that appends [f d] to a result list for each [d], and
    stops at the first exception. *)
Fixpoint for_each {A B : Type} (f : A -> result B) (l : list A)
  : result (list B) :=
  match l with
  | [] => Ok []
  | d :: rest =>
      bind_result (f d) (fun x =>
      bind_result (for_each f rest) (fun xs => Ok (x :: xs)))
  end.

(** ** Text *)

(** A [str] is kept as the bytes of its UTF-8 encoding.  A byte of the form
    [10xxxxxx] continues a character; any other byte starts one. *)
Definition is_continuation (c : ascii) : bool :=
  (N.land (N_of_ascii c) 192 =? 128)%N.

(** [s[:n]]: the first [n] characters of [s]. *)
Fixpoint slice_to (n : nat) (s : string) : string :=
  match s with
  | EmptyString => EmptyString
  | String c rest =>
      if is_continuation c then String c (slice_to n rest)
      else
        match n with
        | O => EmptyString
        | S n' => String c (slice_to n' rest)
        end
  end.

(** [len(s)]: the number of characters of [s]. *)
Fixpoint len (s : string) : nat :=
  match s with
  | EmptyString => O
  | String c rest => if is_continuation c then len rest else S (len rest)
  end.

(** ** bson: object identifiers *)

Module Bson.

(** White space as [bytes.fromhex] skips it: tab, line feed, vertical tab,
    form feed, carriage return and space. *)
Definition is_space (c : ascii) : bool :=
  let n := N_of_ascii c in
  (((9 <=? n) && (n <=? 13)) || (n =? 32))%N.

(** The value of a hexadecimal digit, in either case. *)
Definition digit_value (c : ascii) : option N :=
  let n := N_of_ascii c in
  if ((48 <=? n) && (n <=? 57))%N then Some (n - 48)%N
  else if ((97 <=? n) && (n <=? 102))%N then Some (n - 87)%N
  else if ((65 <=? n) && (n <=? 70))%N then Some (n - 55)%N
  else None.

(** [bytes.fromhex(s)]: pairs of hexadecimal digits, with white space
    allowed before a pair and at the end, and not inside a pair. *)
Fixpoint fromhex (s : string) : option string :=
  match s with
  | EmptyString => Some EmptyString
  | String c rest =>
      if is_space c then fromhex rest
      else
        match rest with
        | EmptyString => None
        | String d rest' =>
            match digit_value c, digit_value d, fromhex rest' with
            | Some top, Some bot, Some bytes =>
                Some (String (ascii_of_N (16 * top + bot)) bytes)
            | _, _, _ => None
            end
        end
  end.

Definition hex_digit (n : N) : ascii :=
  if (n <? 10)%N then ascii_of_N (48 + n) else ascii_of_N (87 + n).

(** The rendering of bytes in lower-case hexadecimal digits. *)
Fixpoint hexlify (bytes : string) : string :=
  match bytes with
  | EmptyString => EmptyString
  | String b rest =>
      String (hex_digit (N_of_ascii b / 16))
        (String (hex_digit (N_of_ascii b mod 16)) (hexlify rest))
  end.

(** An [ObjectId] built from a string: the bytes [fromhex] found.  They
    are twelve when the string is 24 digits, and fewer when it has white
    space. *)
Record object_id : Type := mk_object_id { binary : string }.

(** [ObjectId(s)] for a string [s]: the string has to be 24 characters
    long and [bytes.fromhex] has to accept it; [InvalidId] otherwise. *)
Definition ObjectId (s : string) : result object_id :=
  if Nat.eqb (len s) 24 then
    match fromhex s with
    | Some bytes => Ok (mk_object_id bytes)
    | None => Raise (InvalidId s)
    end
  else Raise (InvalidId s).

Definition is_lower_hex_digit (c : ascii) : bool :=
  let n := N_of_ascii c in
  (((48 <=? n) && (n <=? 57)) || ((97 <=? n) && (n <=? 102)))%N.

Fixpoint all_lower_hex (s : string) : bool :=
  match s with
  | EmptyString => true
  | String c rest => is_lower_hex_digit c && all_lower_hex rest
  end.

(** The rendering of twelve bytes: 24 lower-case hexadecimal digits. *)
Definition canonical (s : string) : bool :=
  Nat.eqb (String.length s) 24 && all_lower_hex s.

(** The [_id] of a stored document.  The store generates it: twelve bytes,
    kept here as their rendering. *)
Record oid : Type := mk_oid {
  hex : string;
  hex_canonical : canonical hex = true
}.

(** [str(_id)] *)
Definition str (o : oid) : string := hex o.

(** A stored identifier equals a built one when they hold the same
    bytes. *)
Definition oid_eqb (a : object_id) (b : oid) : bool :=
  String.eqb (hexlify (binary a)) (hex b).

Definition lower (c : ascii) : ascii :=
  let n := N_of_ascii c in
  if ((65 <=? n) && (n <=? 70))%N then ascii_of_N (n + 32) else c.

(** The string with its digits [A] to [F] in lower case. *)
Fixpoint lower_hex (s : string) : string :=
  match s with
  | EmptyString => EmptyString
  | String c rest => String (lower c) (lower_hex rest)
  end.

(** The identifier that [ObjectId] builds from the rendering of a stored
    one. *)
Definition object_id_of (o : oid) : object_id :=
  mk_object_id
    match fromhex (hex o) with
    | Some bytes => bytes
    | None => EmptyString
    end.

End Bson.

Import Bson.

(** ** Python built-ins used by the handlers *)

Module Py.

(** Rounding of the rational [num / den] ([0 < den], [0 <= num]) to the
    nearest integer, ties to even. *)
Definition round_half_even (num den : Z) : Z :=
  let q := num / den in
  let r := num mod den in
  match 2 * r ?= den with
  | Lt => q
  | Gt => q + 1
  | Eq => if Z.even q then q else q + 1
  end.

(** [round(x, ndigits)] on a float, for [0 <= ndigits]: the exact value of
    [x] is rounded to [ndigits] decimals, ties to even, and the decimal
    obtained is converted to the nearest float.  Infinities, NaN and
    zeros round to themselves, and so does a float with a non-negative
    exponent, which is an integer. *)
Definition round (x : float) (ndigits : Z) : float :=
  match Prim2SF x with
  | S754_finite s m e =>
      if 0 <=? e then x
      else
        match round_half_even (Zpos m * 10 ^ ndigits) (2 ^ (- e)) with
        | Zpos n =>
            SF2Prim (SFdiv prec emax (S754_finite s n 0)
                       (S754_finite false (Z.to_pos (10 ^ ndigits)) 0))
        | _ => SF2Prim (S754_zero s)
        end
  | _ => x
  end.

(** [l.sort(key=key)] with integer keys: the sort is stable.  An element
    is inserted after the elements whose key is not greater. *)
Section Sort.
Context {A : Type} (key : A -> Z).

Fixpoint insert (x : A) (l : list A) : list A :=
  match l with
  | [] => [x]
  | y :: rest =>
      if key x <? key y then x :: y :: rest else y :: insert x rest
  end.

Definition sort (l : list A) : list A :=
  fold_left (fun acc x => insert x acc) l [].

(** The order of the keys. *)
Definition le_key (a b : A) : Prop := key a <= key b.
End Sort.

(** [float(n)] for an integer that a float holds exactly. *)
Definition float_of_int (n : Z) : float :=
  SF2Prim (binary_normalize prec emax n 0 false).

End Py.

(** ** pydantic: validation *)

(** In its lax mode pydantic also accepts, for a number or a boolean, some
    values of another JSON kind (a number written in a string, say) and
    converts them.  Which values it accepts, and what it makes of them, is a
    parameter of the development: [lax_float] is asked about a string, a
    boolean or an integer too large to be held exactly, [lax_int] about a
    string, a boolean or a float, [lax_bool] about a string or a number.
    Everything proved below holds whatever these conversions are. *)
Class Lax : Type := {
  lax_float : json -> option float;
  lax_int : json -> option Z;
  lax_bool : json -> option bool
}.

(** The conversions that accept nothing; they serve where no body holds a
    value of another kind. *)
#[export] Instance own_kind_only : Lax := {|
  lax_float := fun _ => None;
  lax_int := fun _ => None;
  lax_bool := fun _ => None
|}.

(** The outcome of validating one field, or a whole model: the value, or
    the errors found.  pydantic reports the errors of all the fields. *)
Inductive checked (A : Type) : Type :=
| Valid (a : A)
| Invalid (errors : list error_detail).

Arguments Valid {A} a.
Arguments Invalid {A} errors.

Definition apply {A B : Type} (f : checked (A -> B)) (x : checked A)
  : checked B :=
  match f, x with
  | Valid g, Valid a => Valid (g a)
  | Valid _, Invalid errors => Invalid errors
  | Invalid errors, Valid _ => Invalid errors
  | Invalid errors, Invalid more => Invalid (errors ++ more)
  end.

Definition to_result {A : Type} (c : checked A) : result A :=
  match c with
  | Valid a => Ok a
  | Invalid errors => Raise (RequestValidationError errors)
  end.

Definition is_invalid {A : Type} (c : checked A) : bool :=
  match c with
  | Valid _ => false
  | Invalid _ => true
  end.

(** The refused inputs can be rendered. *)
Definition errors_finite {A : Type} (c : checked A) : Prop :=
  match c with
  | Valid _ => True
  | Invalid errors => forallb (fun d => finite (input d)) errors = true
  end.

Definition conv_finite {A : Type} (conv : string -> json -> checked A)
  : Prop :=
  forall loc v, finite v = true -> errors_finite (conv loc v).

(** The field of a validated model, against the body: the validated value
    of the member the body has under [name], and [default] when it has
    none. *)
Definition field_of {A : Type} (members : list (string * json))
  (name : string) (conv : string -> json -> checked A) (default stored : A)
  : Prop :=
  match assoc name members with
  | Some v => conv name v = Valid stored
  | None => stored = default
  end.

(** A field of type [str]: a JSON string, and nothing else. *)
Definition a_str (loc : string) (v : json) : checked string :=
  match v with
  | JStr s => Valid s
  | _ => Invalid [mk_error loc "Input should be a valid string" v]
  end.

(** [Optional[...]]: [null] is [None]. *)
Definition nullable {A : Type} (conv : string -> json -> checked A)
  (loc : string) (v : json) : checked (option A) :=
  match v with
  | JNull => Valid None
  | _ => apply (Valid Some) (conv loc v)
  end.

(** [List[str]]: an array of strings; each element that is not a string is
    an error. *)
Fixpoint strings (loc : string) (items : list json) : checked (list string) :=
  match items with
  | [] => Valid []
  | item :: rest =>
      apply (apply (Valid cons) (a_str loc item)) (strings loc rest)
  end.

Definition a_str_list (loc : string) (v : json) : checked (list string) :=
  match v with
  | JArray items => strings loc items
  | _ => Invalid [mk_error loc "Input should be a valid list" v]
  end.

Section Conversions.
Context {L : Lax}.

(** The float of a value: a float is itself, an integer is converted. *)
Definition to_float (v : json) : option float :=
  match v with
  | JFloat x => Some x
  | JInt n =>
      if Z.abs n <=? 2 ^ 53 then Some (Py.float_of_int n) else lax_float v
  | JStr _ | JBool _ => lax_float v
  | JNull | JArray _ | JObject _ => None
  end.

Definition to_int (v : json) : option Z :=
  match v with
  | JInt n => Some n
  | JStr _ | JBool _ | JFloat _ => lax_int v
  | JNull | JArray _ | JObject _ => None
  end.

Definition to_bool (v : json) : option bool :=
  match v with
  | JBool b => Some b
  | JStr _ | JInt _ | JFloat _ => lax_bool v
  | JNull | JArray _ | JObject _ => None
  end.

(** A field of type [float] with [ge=bound]: NaN is refused, as every
    comparison with it fails. *)
Definition a_float_ge (bound : float) (loc : string) (v : json)
  : checked float :=
  match to_float v with
  | None => Invalid [mk_error loc "Input should be a valid number" v]
  | Some x =>
      if PrimFloat.leb bound x then Valid x
      else
        Invalid
          [mk_error loc "Input should be greater than or equal to 0" v]
  end.

(** A field of type [int] with [ge=bound]. *)
Definition a_int_ge (bound : Z) (loc : string) (v : json) : checked Z :=
  match to_int v with
  | None => Invalid [mk_error loc "Input should be a valid integer" v]
  | Some n =>
      if bound <=? n then Valid n
      else
        Invalid
          [mk_error loc "Input should be greater than or equal to 0" v]
  end.

Definition a_bool (loc : string) (v : json) : checked bool :=
  match to_bool v with
  | None => Invalid [mk_error loc "Input should be a valid boolean" v]
  | Some b => Valid b
  end.

End Conversions.

(** A required field, [Field(...)]: when the key is missing, the refused
    input is the whole body. *)
Definition required {A : Type} (name : string)
  (conv : string -> json -> checked A) (members : list (string * json))
  : checked A :=
  match assoc name members with
  | Some v => conv name v
  | None => Invalid [mk_error name "Field required" (JObject members)]
  end.

(** A field with a default. *)
Definition defaulted {A : Type} (name : string)
  (conv : string -> json -> checked A) (default : A)
  (members : list (string * json)) : checked A :=
  match assoc name members with
  | Some v => conv name v
  | None => Valid default
  end.

(** A body that is not an object fits no model. *)
Definition not_an_object {A : Type} (body : json) : result A :=
  Raise
    (RequestValidationError
       [mk_error "body"
          "Input should be a valid dictionary or object to extract fields from"
          body]).

(** [Field(..., ge=0)] on the float of a model that a handler builds. *)
Definition check_ge_float (loc : string) (bound x : float) : result float :=
  if PrimFloat.leb bound x then Ok x
  else Raise (ValidationError loc "Input should be greater than or equal to 0").

(** [Field(..., ge=0)] on the [int] of a model that a handler builds. *)
Definition check_ge_int (loc : string) (bound x : Z) : result Z :=
  if bound <=? x then Ok x
  else Raise (ValidationError loc "Input should be greater than or equal to 0").

(** ** schemas.py *)

Module Course.

Record t : Type := mk {
  title : string;
  subtitle : option string;
  description : option string;
  price : float;
  thumbnail_url : option string;
  category : option string;
  level : option string;
  published : bool;
  tags : option (list string)
}.

(** Validation of a body against the model: [title] and [price] are
    required, [price] has [ge=0], the other fields have defaults, and keys
    the model does not declare are dropped. *)
Definition validate {L : Lax} (body : json) : result t :=
  match body with
  | JObject members =>
      to_result
        (apply (apply (apply (apply (apply (apply (apply (apply (apply
           (Valid mk)
           (required "title" a_str members))
           (defaulted "subtitle" (nullable a_str) None members))
           (defaulted "description" (nullable a_str) None members))
           (required "price" (a_float_ge 0) members))
           (defaulted "thumbnail_url" (nullable a_str) None members))
           (defaulted "category" (nullable a_str) None members))
           (defaulted "level" (nullable a_str) None members))
           (defaulted "published" a_bool false members))
           (defaulted "tags" (nullable a_str_list) (Some []) members))
  | _ => not_an_object body
  end.

End Course.

Module Lesson.

Record t : Type := mk {
  course_id : string;
  title : string;
  content : option string;
  video_url : option string;
  order : Z;
  free_preview : bool
}.

Definition validate {L : Lax} (body : json) : result t :=
  match body with
  | JObject members =>
      to_result
        (apply (apply (apply (apply (apply (apply
           (Valid mk)
           (required "course_id" a_str members))
           (required "title" a_str members))
           (defaulted "content" (nullable a_str) None members))
           (defaulted "video_url" (nullable a_str) None members))
           (defaulted "order" (a_int_ge 0) 0 members))
           (defaulted "free_preview" a_bool false members))
  | _ => not_an_object body
  end.

(** [data["course_id"] = course_id] on the dump of a lesson. *)
Definition set_course_id (course_id : string) (data : t) : t :=
  {| course_id := course_id;
     title := title data;
     content := content data;
     video_url := video_url data;
     order := order data;
     free_preview := free_preview data |}.

End Lesson.

Module Order.

Record t : Type := mk {
  course_id : string;
  buyer_name : string;
  buyer_email : string;
  amount : float;
  status : string
}.

(** [Order(course_id=..., buyer_name=..., buyer_email=..., amount=...,
    status=...)]: [amount] has [ge=0]. *)
Definition new (course_id buyer_name buyer_email : string) (amount : float)
  (status : string) : result t :=
  bind_result (check_ge_float "amount" 0 amount)
    (fun amount =>
  Ok {| course_id := course_id;
        buyer_name := buyer_name;
        buyer_email := buyer_email;
        amount := amount;
        status := status |}).

End Order.

(** ** The models of main.py *)

Module OrderIn.

Record t : Type := mk {
  course_id : string;
  buyer_name : string;
  buyer_email : string
}.

(** The three fields are required; the model declares no [amount], and a
    key it does not declare is dropped. *)
Definition validate (body : json) : result t :=
  match body with
  | JObject members =>
      to_result
        (apply (apply (apply
           (Valid mk)
           (required "course_id" a_str members))
           (required "buyer_name" a_str members))
           (required "buyer_email" a_str members))
  | _ => not_an_object body
  end.

End OrderIn.

Module AdminSummary.

Record t : Type := mk {
  total_courses : Z;
  published_courses : Z;
  total_lessons : Z;
  total_sales : Z;
  revenue : float
}.

End AdminSummary.

(** ** Documents and collections *)

(** [datetime] values, as a count of microseconds. *)
Definition datetime : Type := Z.

(** A date as the store keeps it: to the millisecond. *)
Definition to_millisecond (t : datetime) : datetime := t / 1000 * 1000.

(** The values a stored field can hold. *)
Inductive value : Type :=
| VNull
| VBool (b : bool)
| VInt (n : Z)
| VFloat (f : float)
| VStr (s : string)
| VList (l : list string)
| VDate (t : datetime)
| VOid (o : oid).

Definition of_option {A : Type} (f : A -> value) (v : option A) : value :=
  match v with
  | Some a => f a
  | None => VNull
  end.

(** A document type lists its fields, by name. *)
Class Document (D : Type) : Type := fields : D -> list (string * value).

(** The document of a course: the dump of the [Course] model, and the
    [updated_at] stamp once [update_course] has set it. *)
Module CourseDoc.

Record t : Type := mk {
  model : Course.t;
  updated_at : option datetime
}.

(** [course.model_dump()] *)
Definition model_dump (course : Course.t) : t :=
  {| model := course; updated_at := None |}.

End CourseDoc.

#[export] Instance Course_fields : Document Course.t := fun c =>
  [ ("title", VStr (Course.title c));
    ("subtitle", of_option VStr (Course.subtitle c));
    ("description", of_option VStr (Course.description c));
    ("price", VFloat (Course.price c));
    ("thumbnail_url", of_option VStr (Course.thumbnail_url c));
    ("category", of_option VStr (Course.category c));
    ("level", of_option VStr (Course.level c));
    ("published", VBool (Course.published c));
    ("tags", of_option VList (Course.tags c)) ].

#[export] Instance CourseDoc_fields : Document CourseDoc.t := fun d =>
  fields (CourseDoc.model d)
  ++ match CourseDoc.updated_at d with
     | Some t => [("updated_at", VDate t)]
     | None => []
     end.

#[export] Instance Lesson_fields : Document Lesson.t := fun l =>
  [ ("course_id", VStr (Lesson.course_id l));
    ("title", VStr (Lesson.title l));
    ("content", of_option VStr (Lesson.content l));
    ("video_url", of_option VStr (Lesson.video_url l));
    ("order", VInt (Lesson.order l));
    ("free_preview", VBool (Lesson.free_preview l)) ].

#[export] Instance Order_fields : Document Order.t := fun o =>
  [ ("course_id", VStr (Order.course_id o));
    ("buyer_name", VStr (Order.buyer_name o));
    ("buyer_email", VStr (Order.buyer_email o));
    ("amount", VFloat (Order.amount o));
    ("status", VStr (Order.status o)) ].

(** The values the queries of this program match on: a boolean, a string or
    an identifier built by [ObjectId]. *)
Inductive qvalue : Type :=
| QBool (b : bool)
| QStr (s : string)
| QOid (o : object_id).

(** A filter: a mapping of field name to the value to match. *)
Definition query : Type := list (string * qvalue).

(** Equality match of a stored value; a string also matches a list that
    holds it. *)
Definition qmatch (q : qvalue) (v : value) : bool :=
  match q, v with
  | QBool a, VBool b => Bool.eqb a b
  | QStr a, VStr b => String.eqb a b
  | QStr a, VList l => existsb (String.eqb a) l
  | QOid a, VOid b => oid_eqb a b
  | _, _ => false
  end.

(** BSON holds integers of up to eight bytes. *)
Definition fits_int64 (v : value) : bool :=
  match v with
  | VInt n => (- 2 ^ 63 <=? n) && (n <? 2 ^ 63)
  | _ => true
  end.

(** The operations of a collection whose documents have type [D]; the
    collection is the list of its documents, in insertion order, each with
    its [_id]. *)
Section Collection.
Context {D : Type} `{Document D}.

Definition get (k : string) (d : oid * D) : option value :=
  assoc k (("_id", VOid (fst d)) :: fields (snd d)).

Definition matches (q : query) (d : oid * D) : bool :=
  forallb (fun kv =>
             match get (fst kv) d with
             | Some v => qmatch (snd kv) v
             | None => false
             end) q.

Definition find (q : query) (c : list (oid * D)) : list (oid * D) :=
  filter (matches q) c.

Definition find_one (q : query) (c : list (oid * D)) : option (oid * D) :=
  List.find (matches q) c.

Definition count_documents (q : query) (c : list (oid * D)) : Z :=
  Z.of_nat (List.length (find q c)).

(** The document can be encoded: each of its integers fits. *)
Definition encodable (data : D) : bool :=
  forallb (fun kv => fits_int64 (snd kv)) (fields data).

(** [insert_one(data)]: the document is encoded, and appended under the
    identifier the store gives it; a document that cannot be encoded is not
    sent. *)
Definition insert_one (_id : oid) (data : D) (c : list (oid * D))
  : result oid * list (oid * D) :=
  if encodable data then (Ok _id, c ++ [(_id, data)])
  else (Raise (OverflowError "MongoDB can only handle up to 8-byte ints"), c).

(** [update_one(q, {"$set": ...})]: the first match is updated in place;
    the count of matched documents comes with the collection. *)
Fixpoint update_one (q : query) (set : D -> D) (c : list (oid * D))
  : Z * list (oid * D) :=
  match c with
  | [] => (0, [])
  | d :: rest =>
      if matches q d then (1, (fst d, set (snd d)) :: rest)
      else let (n, rest') := update_one q set rest in (n, d :: rest')
  end.

(** [delete_one(q)]: the first match is removed. *)
Fixpoint delete_one (q : query) (c : list (oid * D))
  : Z * list (oid * D) :=
  match c with
  | [] => (0, [])
  | d :: rest =>
      if matches q d then (1, rest)
      else let (n, rest') := delete_one q rest in (n, d :: rest')
  end.

End Collection.

(** ** The database *)

(** The collections, which the program names ["course"], ["lesson"] and
    ["order"]. *)
Inductive collection : Type := coll_course | coll_lesson | coll_order.

Definition document (c : collection) : Type :=
  match c with
  | coll_course => CourseDoc.t
  | coll_lesson => Lesson.t
  | coll_order => Order.t
  end.

#[export] Instance document_fields (c : collection) : Document (document c) :=
  match c with
  | coll_course => CourseDoc_fields
  | coll_lesson => Lesson_fields
  | coll_order => Order_fields
  end.

Record Database : Type := mk_db {
  db_course : list (oid * CourseDoc.t);
  db_lesson : list (oid * Lesson.t);
  db_order : list (oid * Order.t)
}.

(** [db[name]] *)
Definition db_get (c : collection) (db : Database)
  : list (oid * document c) :=
  match c with
  | coll_course => db_course db
  | coll_lesson => db_lesson db
  | coll_order => db_order db
  end.

Definition db_set (c : collection) (docs : list (oid * document c))
  (db : Database) : Database :=
  match c return list (oid * document c) -> Database with
  | coll_course => fun docs =>
      {| db_course := docs; db_lesson := db_lesson db;
         db_order := db_order db |}
  | coll_lesson => fun docs =>
      {| db_course := db_course db; db_lesson := docs;
         db_order := db_order db |}
  | coll_order => fun docs =>
      {| db_course := db_course db; db_lesson := db_lesson db;
         db_order := docs |}
  end docs.

(** A handler that writes: the result, and the database after the call. *)
Definition handler (A : Type) : Type := Database -> result A * Database.

(** ** database.py *)

(** Modelled from the spec: [create_document] of [database.py], which is
    not among the sources.  It serializes the record to a document, inserts
    it into the named collection and returns the newly assigned identifier
    rendered as a string; when the insert fails, the failure is raised and
    nothing is stored.  The identifier the store assigns is the argument
    [_id].  Of the failures the spec names, the one modelled is the
    malformed document, which the document itself decides: an integer that
    cannot be encoded, for which the driver raises [OverflowError].  A
    connection that was never made, or that is lost, is outside
    [Database], which stands for a store that answers. *)
Definition create_document (c : collection) (_id : oid) (data : document c)
  : handler string :=
  fun db =>
    let (inserted_id, docs) := insert_one _id data (db_get c db) in
    match inserted_id with
    | Ok inserted_id => (Ok (str inserted_id), db_set c docs db)
    | Raise e => (Raise e, db)
    end.

(** Modelled from the spec: [get_documents] of [database.py], which is not
    among the sources.  Given a mapping of field name to exact-match value
    (the empty mapping means all), it returns the materialized sequence of
    the matching documents, in store-native order.  The documents come with
    their [_id]: the callers in [main.py] pop it and render it under [id]
    themselves. *)
Definition get_documents (c : collection) (filter_query : query)
  (db : Database) : list (oid * document c) :=
  find filter_query (db_get c db).

(** ** main.py: response models *)

Module CourseOut.

(** [CourseOut(Course)]: the fields of a course and its [id]. *)
Record t : Type := mk {
  id : string;
  course : Course.t
}.

(** The [CourseOut] built from the keys of a stored document whose [_id]
    has been replaced by [id]: the fields are validated again ([price] has
    [ge=0]), and [updated_at], which the model does not declare, is
    dropped. *)
Definition new (id : string) (d : CourseDoc.t) : result t :=
  bind_result
    (check_ge_float "price" 0 (Course.price (CourseDoc.model d)))
    (fun _ => Ok {| id := id; course := CourseDoc.model d |}).

End CourseOut.

Module LessonOut.

Record t : Type := mk {
  id : string;
  lesson : Lesson.t
}.

(** The [LessonOut] built from the keys of a stored document: [order]
    has [ge=0]. *)
Definition new (id : string) (d : Lesson.t) : result t :=
  bind_result (check_ge_int "order" 0 (Lesson.order d))
    (fun _ => Ok {| id := id; lesson := d |}).

(** [lambda x: x.order] *)
Definition order (x : t) : Z := Lesson.order (lesson x).

End LessonOut.

(** ** main.py: handlers *)

(** [{"$set": update_data}] of [update_course]: [update_data] has every key
    of the [Course] model and [updated_at], which are all the keys of the
    document but [_id].  The store keeps the date to the millisecond. *)
Definition set_update_data (course : Course.t) (updated_at : datetime)
  (_ : CourseDoc.t) : CourseDoc.t :=
  {| CourseDoc.model := course;
     CourseDoc.updated_at := Some (to_millisecond updated_at) |}.

(** [POST /api/courses].  [_id] is the identifier the store assigns. *)
Definition create_course (_id : oid) (course : Course.t) : handler string :=
  fun db =>
    let (course_id, db') :=
      create_document coll_course _id (CourseDoc.model_dump course) db in
    (bind_result course_id (fun course_id => Ok course_id), db').

(** [GET /api/courses] *)
Definition list_courses (published : option bool) (db : Database)
  : result (list CourseOut.t) :=
  let filter_query :=
    match published with
    | Some b => [("published", QBool b)]
    | None => []
    end in
  let docs := get_documents coll_course filter_query db in
  for_each (fun d => CourseOut.new (str (fst d)) (snd d)) docs.

(** [GET /api/courses/{course_id}] *)
Definition get_course (course_id : string) (db : Database)
  : result CourseOut.t :=
  bind_result
    (try_except (ObjectId course_id) (HTTPException 400 "Invalid course id"))
    (fun obj_id =>
       match find_one [("_id", QOid obj_id)] (db_course db) with
       | None => Raise (HTTPException 404 "Course not found")
       | Some doc => CourseOut.new (str (fst doc)) (snd doc)
       end).

(** [PATCH /api/courses/{course_id}].  [utcnow] is the reading of the
    clock. *)
Definition update_course (utcnow : datetime) (course_id : string)
  (course : Course.t) : handler string :=
  fun db =>
    match
      try_except (ObjectId course_id) (HTTPException 400 "Invalid course id")
    with
    | Raise e => (Raise e, db)
    | Ok obj_id =>
        let (matched_count, docs) :=
          update_one [("_id", QOid obj_id)] (set_update_data course utcnow)
            (db_course db) in
        let db' := db_set coll_course docs db in
        if matched_count =? 0
        then (Raise (HTTPException 404 "Course not found"), db')
        else (Ok "ok", db')
    end.

(** [DELETE /api/courses/{course_id}] *)
Definition delete_course (course_id : string) : handler string :=
  fun db =>
    match
      try_except (ObjectId course_id) (HTTPException 400 "Invalid course id")
    with
    | Raise e => (Raise e, db)
    | Ok obj_id =>
        let (deleted_count, docs) :=
          delete_one [("_id", QOid obj_id)] (db_course db) in
        let db' := db_set coll_course docs db in
        if deleted_count =? 0
        then (Raise (HTTPException 404 "Course not found"), db')
        else (Ok "ok", db')
    end.

(** [POST /api/courses/{course_id}/lessons] *)
Definition create_lesson (_id : oid) (course_id : string) (lesson : Lesson.t)
  : handler string :=
  fun db =>
    let data := lesson in
    let data := Lesson.set_course_id course_id data in
    let (lesson_id, db') := create_document coll_lesson _id data db in
    (bind_result lesson_id (fun lesson_id => Ok lesson_id), db').

(** [GET /api/courses/{course_id}/lessons] *)
Definition list_lessons (course_id : string) (db : Database)
  : result (list LessonOut.t) :=
  let docs := get_documents coll_lesson [("course_id", QStr course_id)] db in
  bind_result (for_each (fun d => LessonOut.new (str (fst d)) (snd d)) docs)
    (fun result => Ok (Py.sort LessonOut.order result)).

(** [POST /api/orders].  The identifier is parsed outside any [try]; the
    amount is [float(course.get("price", 0))], and a course document always
    has a float under [price]. *)
Definition create_order (_id : oid) (order : OrderIn.t)
  : handler (string * string) :=
  fun db =>
    match ObjectId (OrderIn.course_id order) with
    | Raise e => (Raise e, db)
    | Ok obj_id =>
        match find_one [("_id", QOid obj_id)] (db_course db) with
        | None => (Raise (HTTPException 404 "Course not found"), db)
        | Some course =>
            let amount := Course.price (CourseDoc.model (snd course)) in
            match
              Order.new (OrderIn.course_id order) (OrderIn.buyer_name order)
                (OrderIn.buyer_email order) amount "paid"
            with
            | Raise e => (Raise e, db)
            | Ok order_doc =>
                let (order_id, db') :=
                  create_document coll_order _id order_doc db in
                (bind_result order_id (fun order_id => Ok (order_id, "paid")),
                 db')
            end
        end
    end.

(** [GET /api/admin/summary] *)
Definition admin_summary (db : Database) : AdminSummary.t :=
  let total_courses := count_documents [] (db_course db) in
  let published_courses :=
    count_documents [("published", QBool true)] (db_course db) in
  let total_lessons := count_documents [] (db_lesson db) in
  let total_sales := count_documents [("status", QStr "paid")] (db_order db) in
  let revenue :=
    fold_left (fun revenue o => (revenue + Order.amount (snd o))%float)
      (find [("status", QStr "paid")] (db_order db)) 0%float in
  {| AdminSummary.total_courses := total_courses;
     AdminSummary.published_courses := published_courses;
     AdminSummary.total_lessons := total_lessons;
     AdminSummary.total_sales := total_sales;
     AdminSummary.revenue := Py.round revenue 2 |}.

(** ** Routes: a handler behind the validation of its request body *)

Definition with_body {M A : Type} (validate : json -> result M) (body : json)
  (h : M -> handler A) : handler A :=
  fun db =>
    match validate body with
    | Raise e => (Raise e, db)
    | Ok m => h m db
    end.

Definition route_create_course {L : Lax} (_id : oid) (body : json)
  : handler string :=
  with_body Course.validate body (create_course _id).

Definition route_update_course {L : Lax} (utcnow : datetime)
  (course_id : string) (body : json) : handler string :=
  with_body Course.validate body (update_course utcnow course_id).

Definition route_create_lesson {L : Lax} (_id : oid) (course_id : string)
  (body : json) : handler string :=
  with_body Lesson.validate body (create_lesson _id course_id).

Definition route_create_order (_id : oid) (body : json)
  : handler (string * string) :=
  with_body OrderIn.validate body (create_order _id).

(** ** main.py: the diagnostic route *)

(** The outcome of a call to the driver: the value it returns, or the text
    [str(e)] of the exception [e] it raises. *)
Inductive outcome (A : Type) : Type :=
| Returned (a : A)
| Raised (text : string).

Arguments Returned {A} a.
Arguments Raised {A} text.

(** What [test_database] reads of the connection [db]: [db.name], and the
    outcome of [db.list_collection_names()]. *)
Record Connection : Type := mk_connection {
  name : string;
  list_collection_names : outcome (list string)
}.

Module Diagnostic.

(** The dictionary [response] of [test_database]. *)
Record t : Type := mk {
  backend : string;
  database : string;
  database_url : option string;
  database_name : option string;
  connection_status : string;
  collections : list string
}.

Definition set_database (v : string) (r : t) : t :=
  mk (backend r) v (database_url r) (database_name r) (connection_status r)
    (collections r).

Definition set_database_url (v : string) (r : t) : t :=
  mk (backend r) (database r) (Some v) (database_name r)
    (connection_status r) (collections r).

Definition set_database_name (v : string) (r : t) : t :=
  mk (backend r) (database r) (database_url r) (Some v)
    (connection_status r) (collections r).

Definition set_connection_status (v : string) (r : t) : t :=
  mk (backend r) (database r) (database_url r) (database_name r) v
    (collections r).

Definition set_collections (v : list string) (r : t) : t :=
  mk (backend r) (database r) (database_url r) (database_name r)
    (connection_status r) v.

End Diagnostic.

(** The truth value of [os.getenv(...)]: [None] and the empty string are
    false. *)
Definition truthy (v : option string) : bool :=
  match v with
  | Some s => negb (String.eqb s "")
  | None => false
  end.

(** [GET /test].  [db] is [None] when no connection was made;
    [DATABASE_URL] is the value of the environment variable.  Nothing in
    the outer [try] raises but the listing, which has its own handler. *)
Definition test_database (db : option Connection)
  (DATABASE_URL : option string) : Diagnostic.t :=
  let response :=
    {| Diagnostic.backend := "✅ Running";
       Diagnostic.database := "❌ Not Available";
       Diagnostic.database_url := None;
       Diagnostic.database_name := None;
       Diagnostic.connection_status := "Not Connected";
       Diagnostic.collections := [] |} in
  match db with
  | Some db =>
      let response :=
        Diagnostic.set_database "✅ Connected & Working" response in
      let response :=
        Diagnostic.set_database_url
          (if truthy DATABASE_URL then "✅ Set" else "❌ Not Set")
          response in
      let response := Diagnostic.set_database_name (name db) response in
      let response := Diagnostic.set_connection_status "Connected" response in
      match list_collection_names db with
      | Returned collections =>
          Diagnostic.set_collections (firstn 10 collections) response
      | Raised text =>
          Diagnostic.set_database
            ("⚠️  Connected but Error: " ++ slice_to 80 text) response
      end
  | None => Diagnostic.set_database "⚠️  Available but not initialized" response
  end.

(** ** Stored documents that satisfy their schema *)

(** The constraint [ge=0] of a float field, as the validators test it. *)
Definition ge_zero (x : float) : bool := PrimFloat.leb 0 x.

(** Every stored document satisfies the range constraints of its model.  The
    handlers only store validated models, so the databases they build have
    this property (see [reachable_well_formed]). *)
Definition well_formed (db : Database) : bool :=
  forallb (fun d => ge_zero (Course.price (CourseDoc.model (snd d))))
    (db_course db)
  && forallb (fun d => 0 <=? Lesson.order (snd d)) (db_lesson db)
  && forallb (fun d => ge_zero (Order.amount (snd d))) (db_order db).

Definition empty_db : Database :=
  {| db_course := []; db_lesson := []; db_order := [] |}.

(** One request that writes.  The identifier the store assigns and the
    reading of the clock come with the request. *)
Inductive request : Type :=
| POST_course (_id : oid) (body : json)
| PATCH_course (utcnow : datetime) (course_id : string) (body : json)
| DELETE_course (course_id : string)
| POST_lesson (_id : oid) (course_id : string) (body : json)
| POST_order (_id : oid) (body : json).

Definition serve {L : Lax} (r : request) (db : Database) : Database :=
  match r with
  | POST_course _id body => snd (route_create_course _id body db)
  | PATCH_course utcnow course_id body =>
      snd (route_update_course utcnow course_id body db)
  | DELETE_course course_id => snd (delete_course course_id db)
  | POST_lesson _id course_id body =>
      snd (route_create_lesson _id course_id body db)
  | POST_order _id body => snd (route_create_order _id body db)
  end.

(** The databases the program builds from the empty one. *)
Inductive reachable {L : Lax} : Database -> Prop :=
| reachable_empty : reachable empty_db
| reachable_serve r db : reachable db -> reachable (serve r db).

(** ** Projections used to state the results *)

(** What a listing shows of a stored course: its [_id] rendered under [id],
    and the fields of the model. *)
Definition course_out (d : oid * CourseDoc.t) : CourseOut.t :=
  {| CourseOut.id := str (fst d); CourseOut.course := CourseDoc.model (snd d) |}.

Definition lesson_out (d : oid * Lesson.t) : LessonOut.t :=
  {| LessonOut.id := str (fst d); LessonOut.lesson := snd d |}.

Definition is_published (d : oid * CourseDoc.t) : bool :=
  Course.published (CourseDoc.model (snd d)).

Definition is_paid (d : oid * Order.t) : bool :=
  String.eqb (Order.status (snd d)) "paid".

Definition of_course (course_id : string) (d : oid * Lesson.t) : bool :=
  String.eqb (Lesson.course_id (snd d)) course_id.

(** The sum of a list of floats as the loop of [admin_summary] computes it:
    from [0.0], adding from the left. *)
Definition float_sum (l : list float) : float :=
  fold_left (fun acc x => (acc + x)%float) l 0%float.

(** The characters of [shown] are the first [n] characters of [text], or
    all of them when [text] has fewer. *)
Definition first_chars (n : nat) (text shown : string) : Prop :=
  exists rest,
    text = String.append shown rest
    /\ len shown = Nat.min n (len text)
    /\ match rest with
       | EmptyString => True
       | String c _ => is_continuation c = false
       end.

(** ** Sample data *)

Definition oid1 : oid := mk_oid "64b7f0a1c2d3e4f5a6b7c8d1" eq_refl.
Definition oid2 : oid := mk_oid "64b7f0a1c2d3e4f5a6b7c8d2" eq_refl.
Definition oid3 : oid := mk_oid "64b7f0a1c2d3e4f5a6b7c8d3" eq_refl.
Definition oid4 : oid := mk_oid "64b7f0a1c2d3e4f5a6b7c8d4" eq_refl.
Definition oid5 : oid := mk_oid "64b7f0a1c2d3e4f5a6b7c8d5" eq_refl.

(** 22 digits and two spaces: [ObjectId] accepts the string and builds an
    identifier of eleven bytes. *)
Definition spaced_id : string := "64b7f0a1c2d3e4f5a6b7c8  ".

Definition sample_course (title : string) (price : float) (published : bool)
  : Course.t :=
  {| Course.title := title; Course.subtitle := None;
     Course.description := None; Course.price := price;
     Course.thumbnail_url := None; Course.category := None;
     Course.level := None; Course.published := published;
     Course.tags := Some ["rocq"] |}.

(** The model of a body that provides a title and a price and nothing
    else. *)
Definition title_price_course (title : string) (price : float) : Course.t :=
  {| Course.title := title; Course.subtitle := None;
     Course.description := None; Course.price := price;
     Course.thumbnail_url := None; Course.category := None;
     Course.level := None; Course.published := false;
     Course.tags := Some [] |}.

(** A body that provides [title] and [price] and nothing else. *)
Definition title_price_body (title : string) (price : float) : json :=
  JObject [("title", JStr title); ("price", JFloat price)].

Definition lesson_body (course_id title : string) (order : Z) : json :=
  JObject [("course_id", JStr course_id); ("title", JStr title);
           ("order", JInt order)].

(** An order body that also carries an [amount], which [OrderIn] does not
    declare. *)
Definition order_body (course_id : string) (amount : float) : json :=
  JObject [("course_id", JStr course_id); ("buyer_name", JStr "Ada");
           ("buyer_email", JStr "ada@example.org");
           ("amount", JFloat amount)].

Definition sample_order (amount : float) (status : string) : Order.t :=
  {| Order.course_id := str oid1; Order.buyer_name := "Ada";
     Order.buyer_email := "ada@example.org"; Order.amount := amount;
     Order.status := status |}.

Definition sample_lesson (order : Z) : Lesson.t :=
  {| Lesson.course_id := str oid1; Lesson.title := "Lesson";
     Lesson.content := None; Lesson.video_url := None;
     Lesson.order := order; Lesson.free_preview := false |}.

(** One published course priced at 49.99. *)
Definition shop_db : Database :=
  {| db_course := [(oid1, CourseDoc.model_dump (sample_course "Rocq" 49.99 true))];
     db_lesson := [];
     db_order := [] |}.

(** Two courses of which one is published, three lessons, and two paid
    orders of 10.00 and 15.50. *)
Definition summary_db : Database :=
  {| db_course :=
       [(oid1, CourseDoc.model_dump (sample_course "Rocq" 10 true));
        (oid2, CourseDoc.model_dump (sample_course "Draft" 15.5 false))];
     db_lesson :=
       [(oid3, sample_lesson 0); (oid4, sample_lesson 1);
        (oid5, sample_lesson 2)];
     db_order :=
       [(oid3, sample_order 10 "paid"); (oid4, sample_order 15.5 "paid")] |}.

(** A store whose only documents are paid orders of the given amounts. *)
Definition paid_orders_db (amounts : list float) : Database :=
  {| db_course := [];
     db_lesson := [];
     db_order := map (fun a => (oid3, sample_order a "paid")) amounts |}.

(** The database after three lessons of the course [oid1] are created with
    the order values 3, 1 and 2. *)
Definition lessons_312_db : Database :=
  serve (POST_lesson oid5 (str oid1) (lesson_body "from the body" "c" 2))
    (serve (POST_lesson oid4 (str oid1) (lesson_body "from the body" "b" 1))
       (serve (POST_lesson oid3 (str oid1) (lesson_body "from the body" "a" 3))
          shop_db)).

(** ** Three readings of the specification that the code does not meet *)

(** [course_id] identifies a stored course: it parses, and a course has the
    parsed identifier. *)
Definition identifies_course (course_id : string) (db : Database) : Prop :=
  exists obj_id course,
    ObjectId course_id = Ok obj_id
    /\ find_one [("_id", QOid obj_id)] (db_course db) = Some course.

(** Order creation answers 404 whenever [course_id] does not identify a
    stored course, and stores nothing. *)
Definition order_of_unidentified_course_not_found : Prop :=
  forall db _id order,
    ~ identifies_course (OrderIn.course_id order) db ->
    create_order _id order db
    = (Raise (HTTPException 404 "Course not found"), db).

(** A body provides a field when it has its key. *)
Definition provides (body : json) (name : string) : bool :=
  match body with
  | JObject members =>
      match assoc name members with
      | Some _ => true
      | None => false
      end
  | _ => false
  end.

(** A successful update leaves every field that the body does not provide
    as it was stored. *)
Definition update_keeps_fields_not_provided {L : Lax} : Prop :=
  forall db utcnow course_id body db' obj_id old new,
    route_update_course utcnow course_id body db = (Ok "ok", db') ->
    ObjectId course_id = Ok obj_id ->
    find_one [("_id", QOid obj_id)] (db_course db) = Some old ->
    find_one [("_id", QOid obj_id)] (db_course db') = Some new ->
    let o := CourseDoc.model (snd old) in
    let n := CourseDoc.model (snd new) in
    (provides body "subtitle" = false ->
     Course.subtitle n = Course.subtitle o)
    /\ (provides body "description" = false ->
        Course.description n = Course.description o)
    /\ (provides body "thumbnail_url" = false ->
        Course.thumbnail_url n = Course.thumbnail_url o)
    /\ (provides body "category" = false ->
        Course.category n = Course.category o)
    /\ (provides body "level" = false -> Course.level n = Course.level o)
    /\ (provides body "published" = false ->
        Course.published n = Course.published o)
    /\ (provides body "tags" = false -> Course.tags n = Course.tags o).


(** * Properties *)

(** ** The runtime pieces *)

Example round_ties_to_even :
  Py.round 0.125 2 = 0.12%float /\ Py.round 0.375 2 = 0.38%float
  /\ Py.round 2.675 2 = 2.67%float /\ Py.round 25.5 2 = 25.5%float
  /\ Py.round 1e22 2 = 1e22%float /\ Py.round infinity 2 = infinity.
Proof. repeat split; vm_compute; reflexivity. Qed.

Example ObjectId_examples :
  ObjectId "64B7F0A1C2D3E4F5A6B7C8D1" = Ok (object_id_of oid1)
  /\ ObjectId "not-an-id" = Raise (InvalidId "not-an-id")
  /\ ObjectId "64b7f0a1c2d3e4f5a6b7c8dg"
     = Raise (InvalidId "64b7f0a1c2d3e4f5a6b7c8dg")
  /\ (exists o, ObjectId spaced_id = Ok o
                /\ String.length (binary o) = 11%nat)
  /\ ObjectId "64b7f0a1c2d3e4f5a6b7c8 d" = Raise (InvalidId "64b7f0a1c2d3e4f5a6b7c8 d").
Proof.
  repeat split. eexists. split; reflexivity.
Qed.

(** ** Queries on typed documents *)

Section Matching.
Context {D : Type} `{Document D}.

Lemma matches_all (d : oid * D) : matches [] d = true.
Proof. reflexivity. Qed.

Lemma matches_id (o : object_id) (d : oid * D) :
  matches [("_id", QOid o)] d = oid_eqb o (fst d).
Proof. unfold matches, get. simpl. apply andb_true_r. Qed.

Lemma find_all (c : list (oid * D)) : find [] c = c.
Proof.
  unfold find. induction c as [|d c IH]; simpl; [reflexivity|].
  now rewrite IH.
Qed.

Lemma filter_ext_eq (p q : oid * D -> bool) (c : list (oid * D)) :
  (forall d, p d = q d) -> filter p c = filter q c.
Proof.
  intros E. induction c as [|d c IH]; simpl; [reflexivity|].
  now rewrite E, IH.
Qed.

End Matching.

Lemma matches_published (b : bool) (d : oid * CourseDoc.t) :
  matches [("published", QBool b)] d = Bool.eqb b (is_published d).
Proof.
  destruct d as [o [m u]]. unfold matches, get, is_published. simpl.
  apply andb_true_r.
Qed.

Lemma matches_course_id (cid : string) (d : oid * Lesson.t) :
  matches [("course_id", QStr cid)] d = of_course cid d.
Proof.
  assert (G : get "course_id" d = Some (VStr (Lesson.course_id (snd d))))
    by reflexivity.
  unfold matches, of_course. cbn [forallb fst snd]. rewrite G.
  cbn [qmatch]. rewrite andb_true_r. apply String.eqb_sym.
Qed.

Lemma matches_paid (d : oid * Order.t) :
  matches [("status", QStr "paid")] d = is_paid d.
Proof.
  assert (G : get "status" d = Some (VStr (Order.status (snd d))))
    by reflexivity.
  unfold matches, is_paid. cbn [forallb fst snd]. rewrite G.
  cbn [qmatch]. rewrite andb_true_r. apply String.eqb_sym.
Qed.

Lemma find_published (b : bool) (c : list (oid * CourseDoc.t)) :
  find [("published", QBool b)] c
  = filter (fun d => Bool.eqb (is_published d) b) c.
Proof.
  apply filter_ext_eq. intros d. rewrite matches_published.
  now destruct b, (is_published d).
Qed.

Lemma find_course_id (cid : string) (c : list (oid * Lesson.t)) :
  find [("course_id", QStr cid)] c = filter (of_course cid) c.
Proof. apply filter_ext_eq, matches_course_id. Qed.

Lemma find_paid (c : list (oid * Order.t)) :
  find [("status", QStr "paid")] c = filter is_paid c.
Proof. apply filter_ext_eq, matches_paid. Qed.

Lemma fold_left_add_map {A : Type} (f : A -> float) (l : list A) (a : float) :
  fold_left (fun acc x => (acc + f x)%float) l a
  = fold_left (fun acc x => (acc + x)%float) (map f l) a.
Proof.
  revert a. induction l as [|x l IH]; intros a; simpl; [reflexivity|].
  apply IH.
Qed.

(** ** Admin summary *)

(** C2.  For every database, the admin summary is made of five aggregates:
    the number of courses, the number of courses whose [published] is true,
    the number of lessons, the number of orders whose status is ["paid"],
    and the sum of [amount] over those paid orders (the float sum, from the
    left, in store order) rounded to two decimals.  Over two courses of
    which one is published, three lessons and two paid orders of 10.00 and
    15.50 it is 2, 1, 3, 2 and 25.50.  The rounding is to the nearest
    hundredth, ties to the even one: sums of 0.30000000000000004, 0.126,
    0.125, 0.375 and 2.675 (the float below it) give revenues of 0.3, 0.13,
    0.12, 0.38 and 2.67. *)
Theorem admin_summary_aggregates :
  (forall db,
     admin_summary db =
     {| AdminSummary.total_courses := Z.of_nat (List.length (db_course db));
        AdminSummary.published_courses :=
          Z.of_nat (List.length (filter is_published (db_course db)));
        AdminSummary.total_lessons := Z.of_nat (List.length (db_lesson db));
        AdminSummary.total_sales :=
          Z.of_nat (List.length (filter is_paid (db_order db)));
        AdminSummary.revenue :=
          Py.round
            (float_sum (map (fun d => Order.amount (snd d))
                          (filter is_paid (db_order db)))) 2 |})
  /\ admin_summary summary_db =
     {| AdminSummary.total_courses := 2;
        AdminSummary.published_courses := 1;
        AdminSummary.total_lessons := 3;
        AdminSummary.total_sales := 2;
        AdminSummary.revenue := 25.5 |}
  /\ AdminSummary.revenue (admin_summary (paid_orders_db [0.1%float; 0.2%float]))
     = 0.3%float
  /\ AdminSummary.revenue (admin_summary (paid_orders_db [0.126%float]))
     = 0.13%float
  /\ AdminSummary.revenue (admin_summary (paid_orders_db [0.125%float]))
     = 0.12%float
  /\ AdminSummary.revenue (admin_summary (paid_orders_db [0.375%float]))
     = 0.38%float
  /\ AdminSummary.revenue (admin_summary (paid_orders_db [2.675%float]))
     = 2.67%float
  /\ AdminSummary.revenue
       (admin_summary (paid_orders_db [1234.5678%float; 0.001%float; 100%float]))
     = 1334.57%float.
Proof.
  split.
  - intros db. unfold admin_summary, count_documents, float_sum.
    rewrite !find_all, find_published, find_paid, fold_left_add_map.
    f_equal. f_equal. f_equal. apply filter_ext_eq.
    intros d. now destruct (is_published d).
  - repeat split; vm_compute; reflexivity.
Qed.

(** Orders that are not paid count neither as sales nor in the revenue. *)
Example admin_summary_counts_paid_only :
  admin_summary
    {| db_course := db_course summary_db;
       db_lesson := [];
       db_order :=
         [(oid3, sample_order 0.125 "paid");
          (oid4, sample_order 99 "refunded");
          (oid5, sample_order 20 "paid")] |}
  = {| AdminSummary.total_courses := 2;
       AdminSummary.published_courses := 1;
       AdminSummary.total_lessons := 0;
       AdminSummary.total_sales := 2;
       AdminSummary.revenue := 20.12 |}.
Proof. vm_compute. reflexivity. Qed.

(** ** The stable sort *)

Section SortFacts.
Context {A : Type} (key : A -> Z).

Lemma insert_perm (x : A) (l : list A) :
  Permutation (x :: l) (Py.insert key x l).
Proof.
  induction l as [|y l IH]; simpl; [reflexivity|].
  destruct (key x <? key y); [reflexivity|].
  rewrite perm_swap. now apply perm_skip.
Qed.

Lemma insert_sorted (x : A) (l : list A) :
  StronglySorted (Py.le_key key) l -> StronglySorted (Py.le_key key) (Py.insert key x l).
Proof.
  induction 1 as [|y l S IH F]; simpl.
  - repeat constructor.
  - destruct (Z.ltb_spec (key x) (key y)) as [L|G].
    + constructor; [now constructor|].
      constructor; [unfold Py.le_key; lia|].
      eapply Forall_impl; [|exact F]. unfold Py.le_key. intros z Hz. lia.
    + constructor; [exact IH|].
      eapply Permutation_Forall; [apply insert_perm|].
      constructor; [exact G | exact F].
Qed.

(** Among the elements of one key, [insert] puts the new one last. *)
Lemma insert_filter_key (k : Z) (x : A) (l : list A) :
  StronglySorted (Py.le_key key) l ->
  filter (fun a => key a =? k) (Py.insert key x l)
  = filter (fun a => key a =? k) l ++ (if key x =? k then [x] else []).
Proof.
  induction 1 as [|y l S IH F]; simpl.
  - now destruct (key x =? k).
  - destruct (Z.ltb_spec (key x) (key y)) as [L|G]; simpl.
    + destruct (Z.eqb_spec (key x) k) as [E|N].
      * assert (Hy : (key y =? k) = false) by (apply Z.eqb_neq; lia).
        rewrite Hy.
        assert (Hl : filter (fun a => key a =? k) l = []).
        { clear IH S. induction F as [|z l Hz F IH]; simpl; [reflexivity|].
          unfold Py.le_key in Hz.
          assert (Hzk : (key z =? k) = false) by (apply Z.eqb_neq; lia).
          now rewrite Hzk. }
        now rewrite Hl.
      * now rewrite app_nil_r.
    + rewrite IH. now destruct (key y =? k).
Qed.

Lemma sort_from_perm (l acc : list A) :
  Permutation (acc ++ l) (fold_left (fun acc x => Py.insert key x acc) l acc).
Proof.
  revert acc. induction l as [|x l IH]; intros acc; simpl.
  - now rewrite app_nil_r.
  - rewrite <- IH, <- insert_perm. simpl.
    symmetry. apply Permutation_middle.
Qed.

Lemma sort_from_sorted (l acc : list A) :
  StronglySorted (Py.le_key key) acc ->
  StronglySorted (Py.le_key key) (fold_left (fun acc x => Py.insert key x acc) l acc).
Proof.
  revert acc. induction l as [|x l IH]; intros acc S; simpl; [exact S|].
  now apply IH, insert_sorted.
Qed.

Lemma sort_from_filter_key (k : Z) (l acc : list A) :
  StronglySorted (Py.le_key key) acc ->
  filter (fun a => key a =? k)
    (fold_left (fun acc x => Py.insert key x acc) l acc)
  = filter (fun a => key a =? k) acc ++ filter (fun a => key a =? k) l.
Proof.
  revert acc. induction l as [|x l IH]; intros acc S; simpl.
  - now rewrite app_nil_r.
  - rewrite IH by now apply insert_sorted.
    rewrite insert_filter_key by exact S.
    rewrite <- app_assoc. now destruct (key x =? k).
Qed.

Lemma sort_perm (l : list A) : Permutation l (Py.sort key l).
Proof. apply (sort_from_perm l []). Qed.

Lemma sort_sorted (l : list A) :
  StronglySorted (fun a b => key a <= key b) (Py.sort key l).
Proof. apply sort_from_sorted. constructor. Qed.

(** Stability: the elements of one key keep their order. *)
Lemma sort_stable (k : Z) (l : list A) :
  filter (fun a => key a =? k) (Py.sort key l)
  = filter (fun a => key a =? k) l.
Proof. unfold Py.sort. rewrite sort_from_filter_key; [reflexivity|constructor]. Qed.

End SortFacts.

(** Equal keys stay in the order they came in. *)
Example sort_keeps_ties_in_order :
  Py.sort snd [("a", 2); ("b", 1); ("c", 2); ("d", 1)]
  = [("b", 1); ("d", 1); ("a", 2); ("c", 2)].
Proof. reflexivity. Qed.

(** ** Loops and stored documents *)

Lemma for_each_ok {A B : Type} (f : A -> result B) (g : A -> B)
  (l : list A) :
  (forall d, In d l -> f d = Ok (g d)) -> for_each f l = Ok (map g l).
Proof.
  induction l as [|d l IH]; intros Hf; simpl; [reflexivity|].
  rewrite (Hf d (or_introl eq_refl)). simpl.
  rewrite IH; [reflexivity|]. intros d' Hd'. apply Hf. now right.
Qed.

Lemma well_formed_course (db : Database) (d : oid * CourseDoc.t) :
  well_formed db = true -> In d (db_course db) ->
  PrimFloat.leb 0 (Course.price (CourseDoc.model (snd d))) = true.
Proof.
  unfold well_formed. intros W I.
  apply andb_prop in W as [W _]. apply andb_prop in W as [W _].
  rewrite forallb_forall in W. exact (W d I).
Qed.

Lemma well_formed_lesson (db : Database) (d : oid * Lesson.t) :
  well_formed db = true -> In d (db_lesson db) ->
  (0 <=? Lesson.order (snd d)) = true.
Proof.
  unfold well_formed. intros W I.
  apply andb_prop in W as [W _]. apply andb_prop in W as [_ W].
  rewrite forallb_forall in W. exact (W d I).
Qed.

Lemma CourseOut_new_ok (db : Database) (d : oid * CourseDoc.t) :
  well_formed db = true -> In d (db_course db) ->
  CourseOut.new (str (fst d)) (snd d) = Ok (course_out d).
Proof.
  intros W I. unfold CourseOut.new, check_ge_float.
  now rewrite (well_formed_course db d W I).
Qed.

Lemma LessonOut_new_ok (db : Database) (d : oid * Lesson.t) :
  well_formed db = true -> In d (db_lesson db) ->
  LessonOut.new (str (fst d)) (snd d) = Ok (lesson_out d).
Proof.
  intros W I. unfold LessonOut.new, check_ge_int.
  now rewrite (well_formed_lesson db d W I).
Qed.

(** ** Listings *)

(** C7.  Listing the courses of a well-formed database with the filter
    [published = b] returns the stored courses whose [published] field
    equals [b], and no other, in store order; without the filter it returns
    every stored course, of both publish states. *)
Theorem list_courses_published_filter (db : Database) (b : bool) :
  well_formed db = true ->
  list_courses (Some b) db
  = Ok (map course_out
          (filter (fun d => Bool.eqb (is_published d) b) (db_course db)))
  /\ list_courses None db = Ok (map course_out (db_course db))
  /\ (forall x,
        In x (map course_out
                (filter (fun d => Bool.eqb (is_published d) b)
                   (db_course db)))
        <-> exists d,
            In d (db_course db)
            /\ Course.published (CourseDoc.model (snd d)) = b
            /\ x = course_out d).
Proof.
  intros W. unfold list_courses, get_documents. cbn [db_get].
  rewrite find_published, find_all. repeat split.
  - apply for_each_ok. intros d I. apply filter_In in I as [I _].
    now apply (CourseOut_new_ok db).
  - apply for_each_ok. intros d I. now apply (CourseOut_new_ok db).
  - intros I. apply in_map_iff in I as (d & E & I).
    apply filter_In in I as [I P]. exists d.
    repeat split; [exact I | now apply eqb_prop | now symmetry].
  - intros (d & I & P & E). subst x. apply in_map, filter_In.
    split; [exact I|]. unfold is_published. rewrite P. apply eqb_reflx.
Qed.

Lemma list_courses_published_filter_witness :
  well_formed summary_db = true
  /\ list_courses (Some true) summary_db
     = Ok [ {| CourseOut.id := "64b7f0a1c2d3e4f5a6b7c8d1";
               CourseOut.course := sample_course "Rocq" 10 true |} ]
  /\ list_courses None summary_db
     = Ok (map course_out (db_course summary_db)).
Proof.
  split; [reflexivity|].
  destruct (list_courses_published_filter summary_db true eq_refl)
    as (F & A & _).
  split; [exact F | exact A].
Defined.

(** C3.  Listing the lessons of a course in a well-formed database returns
    the stored lessons whose [course_id] equals the identifier asked for,
    and no other, sorted by ascending [order]; lessons of equal [order] come
    in the order of the store (the sort is stable). *)
Theorem list_lessons_sorted_by_order (db : Database) (course_id : string) :
  well_formed db = true ->
  exists result,
    list_lessons course_id db = Ok result
    /\ Permutation
         (map lesson_out (filter (of_course course_id) (db_lesson db))) result
    /\ StronglySorted
         (fun a b => LessonOut.order a <= LessonOut.order b) result
    /\ (forall k,
          filter (fun x => LessonOut.order x =? k) result
          = filter (fun x => LessonOut.order x =? k)
              (map lesson_out
                 (filter (of_course course_id) (db_lesson db)))).
Proof.
  intros W. unfold list_lessons, get_documents. cbn [db_get].
  rewrite find_course_id.
  rewrite (for_each_ok _ lesson_out).
  - cbn [bind_result]. eexists. split; [reflexivity|].
    split; [apply sort_perm|]. split; [apply sort_sorted|].
    intros k. apply sort_stable.
  - intros d I. apply filter_In in I as [I _].
    now apply (LessonOut_new_ok db).
Qed.

(** Lessons created with the order values 3, 1 and 2 are listed in the
    order 1, 2, 3. *)
Lemma list_lessons_sorted_by_order_witness :
  map (fun d => Lesson.order (snd d)) (db_lesson lessons_312_db) = [3; 1; 2]
  /\ well_formed lessons_312_db = true
  /\ (exists result,
        list_lessons (str oid1) lessons_312_db = Ok result
        /\ map LessonOut.order result = [1; 2; 3]
        /\ StronglySorted
             (fun a b => LessonOut.order a <= LessonOut.order b) result).
Proof.
  split; [reflexivity|]. split; [reflexivity|].
  destruct (list_lessons_sorted_by_order lessons_312_db (str oid1) eq_refl)
    as (result & E & _ & S & _).
  exists result. split; [exact E|]. split; [|exact S].
  assert (E' : match list_lessons (str oid1) lessons_312_db with
               | Ok r => map LessonOut.order r
               | Raise _ => []
               end = [1; 2; 3]) by reflexivity.
  rewrite E in E'. exact E'.
Defined.

(** ** Updates and deletions of one document *)

Section OneDocument.
Context {D : Type} `{Document D}.

Lemma update_one_no_match (q : query) (set : D -> D) (c : list (oid * D)) :
  find_one q c = None -> update_one q set c = (0, c).
Proof.
  unfold find_one. induction c as [|d c IH]; simpl; [reflexivity|].
  destruct (matches q d); [discriminate|].
  intros N. now rewrite (IH N).
Qed.

Lemma delete_one_no_match (q : query) (c : list (oid * D)) :
  find_one q c = None -> delete_one q c = (0, c).
Proof.
  unfold find_one. induction c as [|d c IH]; simpl; [reflexivity|].
  destruct (matches q d); [discriminate|].
  intros N. now rewrite (IH N).
Qed.

(** The first match is replaced where it stands; the documents before it
    and after it are untouched. *)
Lemma update_one_match (q : query) (set : D -> D) (c : list (oid * D))
  (old : oid * D) :
  find_one q c = Some old ->
  exists before after,
    c = before ++ old :: after
    /\ find_one q before = None
    /\ update_one q set c
       = (1, before ++ (fst old, set (snd old)) :: after).
Proof.
  unfold find_one. induction c as [|d c IH]; simpl; [discriminate|].
  destruct (matches q d) eqn:M.
  - intros [= ->]. exists [], c. repeat split.
  - intros F. destruct (IH F) as (before & after & -> & N & U).
    exists (d :: before), after. simpl. rewrite M, U. repeat split.
    exact N.
Qed.

Lemma update_one_forallb (p : oid * D -> bool) (q : query) (set : D -> D)
  (c : list (oid * D)) :
  (forall d, p (fst d, set (snd d)) = true) ->
  forallb p c = true -> forallb p (snd (update_one q set c)) = true.
Proof.
  intros S. induction c as [|d c IH]; simpl; [reflexivity|].
  intros P. apply andb_prop in P as [Pd Pc].
  destruct (matches q d); simpl.
  - now rewrite S, Pc.
  - destruct (update_one q set c) as [n c']. simpl in *.
    now rewrite Pd, IH.
Qed.

Lemma delete_one_forallb (p : oid * D -> bool) (q : query)
  (c : list (oid * D)) :
  forallb p c = true -> forallb p (snd (delete_one q c)) = true.
Proof.
  induction c as [|d c IH]; simpl; [reflexivity|].
  intros P. apply andb_prop in P as [Pd Pc].
  destruct (matches q d); simpl; [exact Pc|].
  destruct (delete_one q c) as [n c']. simpl in *.
  now rewrite Pd, IH.
Qed.

End OneDocument.

Lemma db_set_course_same (db : Database) :
  db_set coll_course (db_course db) db = db.
Proof. now destruct db. Qed.

Lemma ObjectId_raises (s : string) (e : exn) :
  ObjectId s = Raise e -> e = InvalidId s.
Proof.
  unfold ObjectId. destruct (Nat.eqb (len s) 24).
  - destruct (fromhex s); [discriminate|]. now intros [= <-].
  - now intros [= <-].
Qed.

(** ** What the adapter stores *)

Lemma fits_optional_str (v : option string) :
  fits_int64 (of_option VStr v) = true.
Proof. now destruct v. Qed.

Lemma course_encodable (d : CourseDoc.t) : encodable d = true.
Proof.
  destruct d as [c u]. unfold encodable.
  change (fields {| CourseDoc.model := c; CourseDoc.updated_at := u |})
    with (fields c ++ match u with
                      | Some t => [("updated_at", VDate t)]
                      | None => []
                      end).
  rewrite forallb_app. apply andb_true_intro. split.
  - cbn. rewrite !fits_optional_str. now destruct (Course.tags c).
  - now destruct u.
Qed.

Lemma create_document_course (_id : oid) (d : CourseDoc.t) (db : Database) :
  create_document coll_course _id d db
  = (Ok (str _id),
     {| db_course := db_course db ++ [(_id, d)];
        db_lesson := db_lesson db;
        db_order := db_order db |}).
Proof.
  unfold create_document, insert_one. cbn [db_get document].
  change (@encodable (document coll_course) (document_fields coll_course) d)
    with (encodable d).
  now rewrite course_encodable.
Qed.

Lemma create_document_order (_id : oid) (o : Order.t) (db : Database) :
  create_document coll_order _id o db
  = (Ok (str _id),
     {| db_course := db_course db;
        db_lesson := db_lesson db;
        db_order := db_order db ++ [(_id, o)] |}).
Proof. reflexivity. Qed.

(** A lesson is stored when its [order] fits in eight bytes, and refused by
    the encoder otherwise. *)
Lemma create_document_lesson (_id : oid) (l : Lesson.t) (db : Database) :
  create_document coll_lesson _id l db
  = if (- 2 ^ 63 <=? Lesson.order l) && (Lesson.order l <? 2 ^ 63)
    then (Ok (str _id),
          {| db_course := db_course db;
             db_lesson := db_lesson db ++ [(_id, l)];
             db_order := db_order db |})
    else (Raise (OverflowError "MongoDB can only handle up to 8-byte ints"),
          db).
Proof.
  unfold create_document, insert_one, encodable. cbn [db_get document].
  change (fields l) with (Lesson_fields l). unfold Lesson_fields.
  cbn [forallb snd]. rewrite fits_optional_str, fits_optional_str.
  cbn [fits_int64 andb]. rewrite andb_true_r.
  now destruct ((- 2 ^ 63 <=? Lesson.order l) && (Lesson.order l <? 2 ^ 63)).
Qed.

(** ** Errors on a course identifier *)



(** ** Orders *)



(** C5, as stated, fails: a [course_id] that is not an identifier at all
    identifies no course, and order creation then ends with [InvalidId], not
    with the 404 error. *)
Lemma order_of_unidentified_course_not_always_404 :
  ~ order_of_unidentified_course_not_found.
Proof.
  intros C.
  specialize (C shop_db oid2 (OrderIn.mk "not-an-id" "Ada" "ada@example.org")).
  assert (N : ~ identifies_course "not-an-id" shop_db).
  { intros (obj_id & course & E & _). discriminate E. }
  specialize (C N). discriminate C.
Qed.

(** C5, amended.  When the [course_id] of an order parses to an identifier
    that no stored course has, order creation fails with the 404 error
    "Course not found" and the database is left as it was: no order is
    stored. *)
Theorem create_order_course_not_found (db : Database) (_id : oid)
  (order : OrderIn.t) (obj_id : object_id) :
  ObjectId (OrderIn.course_id order) = Ok obj_id ->
  find_one [("_id", QOid obj_id)] (db_course db) = None ->
  create_order _id order db
  = (Raise (HTTPException 404 "Course not found"), db)
  /\ response_status (HTTPException 404 "Course not found") = 404.
Proof.
  intros E N. unfold create_order. now rewrite E, N.
Qed.

Lemma create_order_course_not_found_witness :
  create_order oid3 (OrderIn.mk (str oid2) "Ada" "ada@example.org") shop_db
  = (Raise (HTTPException 404 "Course not found"), shop_db).
Proof.
  exact (proj1 (create_order_course_not_found shop_db oid3
                  (OrderIn.mk (str oid2) "Ada" "ada@example.org")
                  (object_id_of oid2) eq_refl eq_refl)).
Defined.

(** C1.  In a well-formed database, for every order request whose
    [course_id] identifies a stored course, whatever undeclared keys the body
    carries (an [amount], say), one order is stored, at the end of the
    collection: its [amount] is the stored price of that course and its
    status is ["paid"].  The call returns the new identifier with the status
    ["paid"]. *)
Theorem create_order_amount_is_course_price (db : Database) (_id : oid)
  (members : list (string * json))
  (course_id buyer_name buyer_email : string)
  (obj_id : object_id) (course : oid * CourseDoc.t) :
  well_formed db = true ->
  assoc "course_id" members = Some (JStr course_id) ->
  assoc "buyer_name" members = Some (JStr buyer_name) ->
  assoc "buyer_email" members = Some (JStr buyer_email) ->
  ObjectId course_id = Ok obj_id ->
  find_one [("_id", QOid obj_id)] (db_course db) = Some course ->
  route_create_order _id (JObject members) db
  = (Ok (str _id, "paid"),
     {| db_course := db_course db;
        db_lesson := db_lesson db;
        db_order :=
          db_order db
          ++ [(_id,
               {| Order.course_id := course_id;
                  Order.buyer_name := buyer_name;
                  Order.buyer_email := buyer_email;
                  Order.amount := Course.price (CourseDoc.model (snd course));
                  Order.status := "paid" |})] |}).
Proof.
  intros W Hc Hn He E F.
  unfold route_create_order, with_body, OrderIn.validate, required.
  rewrite Hc, Hn, He. cbn [a_str apply to_result].
  unfold create_order. cbn [OrderIn.course_id OrderIn.buyer_name
                              OrderIn.buyer_email].
  rewrite E, F. unfold Order.new, check_ge_float.
  apply find_some in F as [I _].
  rewrite (well_formed_course db course W I). cbn [bind_result].
  now rewrite create_document_order.
Qed.

(** An order for the course priced at 49.99, with a body that asks for an
    amount of 0.01: the stored amount is 49.99. *)
Lemma create_order_amount_is_course_price_witness :
  well_formed shop_db = true
  /\ route_create_order oid2 (order_body (str oid1) 0.01) shop_db
     = (Ok (str oid2, "paid"),
        {| db_course := db_course shop_db;
           db_lesson := [];
           db_order :=
             [(oid2,
               {| Order.course_id := str oid1;
                  Order.buyer_name := "Ada";
                  Order.buyer_email := "ada@example.org";
                  Order.amount := 49.99;
                  Order.status := "paid" |})] |}).
Proof.
  split; [reflexivity|].
  exact (create_order_amount_is_course_price shop_db oid2
           [("course_id", JStr (str oid1)); ("buyer_name", JStr "Ada");
            ("buyer_email", JStr "ada@example.org");
            ("amount", JFloat 0.01)]
           (str oid1) "Ada" "ada@example.org"
           (object_id_of oid1)
           (oid1, CourseDoc.model_dump (sample_course "Rocq" 49.99 true))
           eq_refl eq_refl eq_refl eq_refl eq_refl eq_refl).
Defined.

(** ** Validation of request bodies *)

Lemma apply_valid {A B : Type} (f : checked (A -> B)) (x : checked A)
  (b : B) :
  apply f x = Valid b -> exists g a, f = Valid g /\ x = Valid a /\ b = g a.
Proof.
  destruct f as [g|], x as [a|]; cbn; try discriminate.
  intros [= <-]. now exists g, a.
Qed.

Lemma to_result_ok {A : Type} (c : checked A) (a : A) :
  to_result c = Ok a -> c = Valid a.
Proof. destruct c; cbn; [now intros [= ->] | discriminate]. Qed.

Lemma is_invalid_apply {A B : Type} (f : checked (A -> B)) (x : checked A) :
  is_invalid (apply f x) = is_invalid f || is_invalid x.
Proof. now destruct f, x. Qed.

Lemma to_result_invalid {A : Type} (c : checked A) :
  is_invalid c = true ->
  exists errors, c = Invalid errors
                 /\ to_result c = Raise (RequestValidationError errors).
Proof. destruct c as [a|errors]; [discriminate|]. now exists errors. Qed.

Lemma apply_finite {A B : Type} (f : checked (A -> B)) (x : checked A) :
  errors_finite f -> errors_finite x -> errors_finite (apply f x).
Proof.
  destruct f, x; cbn; try tauto.
  intros F X. now rewrite forallb_app, F, X.
Qed.

Lemma assoc_finite (members : list (string * json)) (k : string) (v : json) :
  finite (JObject members) = true -> assoc k members = Some v ->
  finite v = true.
Proof.
  cbn [finite]. induction members as [|[k' v'] members IH];
    cbn [assoc forallb snd]; [discriminate|].
  intros F. apply andb_prop in F as [Fv Fm].
  destruct (String.eqb k k'); [now intros [= <-] | now apply IH].
Qed.

Lemma required_finite {A : Type} (name : string)
  (conv : string -> json -> checked A) (members : list (string * json)) :
  finite (JObject members) = true -> conv_finite conv ->
  errors_finite (required name conv members).
Proof.
  intros F C. unfold required.
  destruct (assoc name members) as [v|] eqn:E.
  - apply C. exact (assoc_finite _ _ _ F E).
  - cbn [errors_finite forallb input]. now rewrite F.
Qed.

Lemma defaulted_finite {A : Type} (name : string)
  (conv : string -> json -> checked A) (default : A)
  (members : list (string * json)) :
  finite (JObject members) = true -> conv_finite conv ->
  errors_finite (defaulted name conv default members).
Proof.
  intros F C. unfold defaulted.
  destruct (assoc name members) as [v|] eqn:E; [|exact I].
  apply C. exact (assoc_finite _ _ _ F E).
Qed.

Lemma a_str_finite : conv_finite a_str.
Proof.
  intros loc v F.
  destruct v; cbn [a_str errors_finite forallb input]; try exact I;
    now rewrite F.
Qed.

Lemma nullable_finite {A : Type} (conv : string -> json -> checked A) :
  conv_finite conv -> conv_finite (nullable conv).
Proof.
  intros C loc v F. unfold nullable.
  destruct v; try exact I;
    (apply apply_finite; [exact I | now apply C]).
Qed.

Lemma a_str_list_finite : conv_finite a_str_list.
Proof.
  intros loc v F. destruct v; cbn [a_str_list errors_finite forallb input];
    try now rewrite F.
  cbn [finite] in F. induction items as [|item items IH];
    cbn [strings]; [exact I|].
  cbn [forallb] in F. apply andb_prop in F as [Fi Fs].
  apply apply_finite; [apply apply_finite; [exact I|] | now apply IH].
  now apply a_str_finite.
Qed.

Lemma a_float_ge_finite {L : Lax} (bound : float) :
  conv_finite (a_float_ge bound).
Proof.
  intros loc v F. unfold a_float_ge.
  destruct (to_float v) as [x|]; [destruct (PrimFloat.leb bound x)|];
    cbn [errors_finite forallb input]; try exact I; now rewrite F.
Qed.

Lemma a_int_ge_finite {L : Lax} (bound : Z) : conv_finite (a_int_ge bound).
Proof.
  intros loc v F. unfold a_int_ge.
  destruct (to_int v) as [x|]; [destruct (bound <=? x)|];
    cbn [errors_finite forallb input]; try exact I; now rewrite F.
Qed.

Lemma a_bool_finite {L : Lax} : conv_finite a_bool.
Proof.
  intros loc v F. unfold a_bool.
  destruct (to_bool v); cbn [errors_finite forallb input]; try exact I;
    now rewrite F.
Qed.

Create HintDb fields.

#[local] Hint Resolve a_str_finite nullable_finite a_str_list_finite
  a_float_ge_finite a_int_ge_finite a_bool_finite : fields.

Ltac fields_finite F :=
  repeat apply apply_finite; try exact I;
  first [apply required_finite | apply defaulted_finite];
  auto with fields.

Lemma checked_status {A : Type} (c : checked A) (e : exn) :
  errors_finite c -> to_result c = Raise e -> response_status e = 422.
Proof.
  destruct c as [a|errors]; cbn; [discriminate|].
  intros F [= <-]. cbn. now rewrite F.
Qed.

Lemma not_an_object_status {A : Type} (body : json) (e : exn) :
  finite body = true -> @not_an_object A body = Raise e ->
  response_status e = 422.
Proof.
  intros F [= <-]. cbn [response_status forallb input]. now rewrite F.
Qed.



Lemma OrderIn_validate_status (body : json) (e : exn) :
  finite body = true -> OrderIn.validate body = Raise e ->
  response_status e = 422.
Proof.
  intros F. destruct body; try apply (not_an_object_status _ _ F).
  unfold OrderIn.validate. apply checked_status. fields_finite F.
Qed.

Lemma to_result_raises {A : Type} (c : checked A) (e : exn) :
  to_result c = Raise e -> exists errors, e = RequestValidationError errors.
Proof. destruct c; cbn; [discriminate|]. intros [= <-]. now eexists. Qed.

Lemma Course_validate_raises {L : Lax} (body : json) (e : exn) :
  Course.validate body = Raise e ->
  exists errors, e = RequestValidationError errors.
Proof.
  destruct body; try (intros [= <-]; now eexists).
  apply to_result_raises.
Qed.

Lemma Lesson_validate_raises {L : Lax} (body : json) (e : exn) :
  Lesson.validate body = Raise e ->
  exists errors, e = RequestValidationError errors.
Proof.
  destruct body; try (intros [= <-]; now eexists).
  apply to_result_raises.
Qed.

Lemma OrderIn_validate_raises (body : json) (e : exn) :
  OrderIn.validate body = Raise e ->
  exists errors, e = RequestValidationError errors.
Proof.
  destruct body; try (intros [= <-]; now eexists).
  apply to_result_raises.
Qed.

Lemma required_str (name : string) (members : list (string * json))
  (s : string) :
  required name a_str members = Valid s <->
  assoc name members = Some (JStr s).
Proof.
  unfold required. destruct (assoc name members) as [v|].
  - destruct v; cbn; split; try discriminate; now intros [= ->].
  - split; discriminate.
Qed.

Lemma required_float {L : Lax} (name : string)
  (members : list (string * json)) (x : float) :
  required name (a_float_ge 0) members = Valid x <->
  exists v,
    assoc name members = Some v
    /\ to_float v = Some x /\ PrimFloat.leb 0 x = true.
Proof.
  unfold required, a_float_ge. destruct (assoc name members) as [v|].
  - destruct (to_float v) as [y|] eqn:T.
    + destruct (PrimFloat.leb 0 y) eqn:G; split.
      * intros [= <-]. exists v. repeat split; assumption.
      * intros (v' & Ev & T' & _). injection Ev as <-. congruence.
      * discriminate.
      * intros (v' & Ev & T' & G'). injection Ev as <-. congruence.
    + split; [discriminate|].
      intros (v' & Ev & T' & _). injection Ev as <-. congruence.
  - split; [discriminate|]. intros (v' & E & _). discriminate.
Qed.

Ltac invert_fields H :=
  apply to_result_ok in H;
  repeat
    (let g := fresh "g" in
     let a := fresh "a" in
     let E := fresh "E" in
     apply apply_valid in H as (g & a & H & E & ->));
  injection H as <-.

(** A course that passes validation: its fields are the validated values of
    the members of the body, and the defaults where the body has no
    member. *)
Lemma Course_validate_ok {L : Lax} (body : json) (course : Course.t) :
  Course.validate body = Ok course ->
  exists members,
    body = JObject members
    /\ required "title" a_str members = Valid (Course.title course)
    /\ defaulted "subtitle" (nullable a_str) None members
       = Valid (Course.subtitle course)
    /\ defaulted "description" (nullable a_str) None members
       = Valid (Course.description course)
    /\ required "price" (a_float_ge 0) members = Valid (Course.price course)
    /\ defaulted "thumbnail_url" (nullable a_str) None members
       = Valid (Course.thumbnail_url course)
    /\ defaulted "category" (nullable a_str) None members
       = Valid (Course.category course)
    /\ defaulted "level" (nullable a_str) None members
       = Valid (Course.level course)
    /\ defaulted "published" a_bool false members
       = Valid (Course.published course)
    /\ defaulted "tags" (nullable a_str_list) (Some []) members
       = Valid (Course.tags course).
Proof.
  destruct body; try discriminate. unfold Course.validate. intros H.
  exists members. split; [reflexivity|].
  invert_fields H. cbn. repeat split; assumption.
Qed.

Lemma Course_validate_price {L : Lax} (body : json) (course : Course.t) :
  Course.validate body = Ok course ->
  PrimFloat.leb 0 (Course.price course) = true.
Proof.
  intros V. apply Course_validate_ok in V as (m & _ & _ & _ & _ & P & _).
  apply required_float in P as (v & _ & _ & G). exact G.
Qed.

Lemma Lesson_validate_ok {L : Lax} (body : json) (lesson : Lesson.t) :
  Lesson.validate body = Ok lesson ->
  exists members,
    body = JObject members
    /\ assoc "course_id" members = Some (JStr (Lesson.course_id lesson))
    /\ assoc "title" members = Some (JStr (Lesson.title lesson))
    /\ defaulted "order" (a_int_ge 0) 0 members = Valid (Lesson.order lesson)
    /\ 0 <= Lesson.order lesson.
Proof.
  destruct body; try discriminate. unfold Lesson.validate. intros H.
  exists members. split; [reflexivity|].
  invert_fields H. cbn.
  split; [now apply required_str|]. split; [now apply required_str|].
  split; [assumption|].
  match goal with
  | E : defaulted "order" _ _ _ = Valid ?n |- _ =>
      revert E; unfold defaulted, a_int_ge
  end.
  destruct (assoc "order" members) as [v|]; [|intros [= <-]; lia].
  destruct (to_int v) as [n|]; [|discriminate].
  destruct (Z.leb_spec 0 n); [|discriminate]. now intros [= <-].
Qed.

Lemma OrderIn_validate_ok (body : json) (order : OrderIn.t) :
  OrderIn.validate body = Ok order <->
  exists members,
    body = JObject members
    /\ assoc "course_id" members = Some (JStr (OrderIn.course_id order))
    /\ assoc "buyer_name" members = Some (JStr (OrderIn.buyer_name order))
    /\ assoc "buyer_email" members
       = Some (JStr (OrderIn.buyer_email order)).
Proof.
  split.
  - destruct body; try discriminate. unfold OrderIn.validate. intros H.
    exists members. split; [reflexivity|].
    invert_fields H. cbn. repeat split; now apply required_str.
  - intros (members & -> & C & N & E). unfold OrderIn.validate, required.
    rewrite C, N, E. now destruct order.
Qed.

Lemma defaulted_field_of {A : Type} (members : list (string * json))
  (name : string) (conv : string -> json -> checked A) (default stored : A) :
  defaulted name conv default members = Valid stored ->
  field_of members name conv default stored.
Proof.
  unfold defaulted, field_of. destruct (assoc name members); [easy|].
  now intros [= <-].
Qed.

(** ** What the routes do with a validated body *)

Lemma route_create_course_valid {L : Lax} (_id : oid) (body : json)
  (course : Course.t) (db : Database) :
  Course.validate body = Ok course ->
  route_create_course _id body db
  = (Ok (str _id),
     {| db_course := db_course db ++ [(_id, CourseDoc.model_dump course)];
        db_lesson := db_lesson db;
        db_order := db_order db |}).
Proof.
  intros V. unfold route_create_course, with_body. rewrite V.
  unfold create_course. now rewrite create_document_course.
Qed.

Lemma route_create_lesson_valid {L : Lax} (_id : oid)
  (course_id : string) (body : json) (lesson : Lesson.t) (db : Database) :
  Lesson.validate body = Ok lesson ->
  route_create_lesson _id course_id body db
  = if Lesson.order lesson <? 2 ^ 63
    then (Ok (str _id),
          {| db_course := db_course db;
             db_lesson :=
               db_lesson db ++ [(_id, Lesson.set_course_id course_id lesson)];
             db_order := db_order db |})
    else (Raise (OverflowError "MongoDB can only handle up to 8-byte ints"),
          db).
Proof.
  intros V. unfold route_create_lesson, with_body. rewrite V.
  unfold create_lesson. rewrite create_document_lesson.
  cbn [Lesson.set_course_id Lesson.order].
  apply Lesson_validate_ok in V as (m & _ & _ & _ & _ & G).
  assert (N : (- 2 ^ 63 <=? Lesson.order lesson) = true)
    by (apply Z.leb_le; lia).
  rewrite N. cbn [andb].
  now destruct (Lesson.order lesson <? 2 ^ 63).
Qed.

Lemma route_update_course_found {L : Lax} (utcnow : datetime)
  (course_id : string) (body : json) (course : Course.t)
  (obj_id : object_id) (old : oid * CourseDoc.t) (db : Database) :
  Course.validate body = Ok course ->
  ObjectId course_id = Ok obj_id ->
  find_one [("_id", QOid obj_id)] (db_course db) = Some old ->
  exists before after,
    db_course db = before ++ old :: after
    /\ find_one [("_id", QOid obj_id)] before = None
    /\ route_update_course utcnow course_id body db
       = (Ok "ok",
          {| db_course :=
               before
               ++ (fst old,
                   {| CourseDoc.model := course;
                      CourseDoc.updated_at :=
                        Some (to_millisecond utcnow) |}) :: after;
             db_lesson := db_lesson db;
             db_order := db_order db |}).
Proof.
  intros V E F.
  destruct (update_one_match _ (set_update_data course utcnow) _ _ F)
    as (before & after & S & N & U).
  exists before, after. split; [exact S|]. split; [exact N|].
  unfold route_update_course, with_body. rewrite V.
  unfold update_course. rewrite E. cbn [try_except]. rewrite U.
  reflexivity.
Qed.

(** ** Course creation *)


(** A refused body is not always answered 422: with a price of minus
    infinity the list of errors cannot be rendered. *)
Example refused_infinite_price_answered_500 {L : Lax} :
  exists e,
    route_create_course oid2 (title_price_body "Rocq" neg_infinity) shop_db
    = (Raise e, shop_db)
    /\ response_status e = 500.
Proof. eexists. split; reflexivity. Qed.




(** ** Course update *)

(** C6, as stated, fails: a stored course is published, the body of the
    update provides a title and a price only, and after the update the
    course is not published any more, whatever the lax conversions are. *)
Lemma update_resets_fields_not_provided :
  ~ exists L : Lax, update_keeps_fields_not_provided.
Proof.
  intros (L & C).
  pose proof
    (C shop_db 1000 (str oid1) (title_price_body "Rocq" 59)
       (snd (route_update_course 1000 (str oid1)
               (title_price_body "Rocq" 59) shop_db))
       (object_id_of oid1)
       (oid1, CourseDoc.model_dump (sample_course "Rocq" 49.99 true))
       (oid1,
        set_update_data (title_price_course "Rocq" 59) 1000
          (CourseDoc.model_dump (sample_course "Rocq" 49.99 true)))
       eq_refl eq_refl eq_refl eq_refl) as K.
  cbv zeta in K. destruct K as (_ & _ & _ & _ & _ & P & _).
  specialize (P eq_refl). discriminate P.
Qed.

(** C6, amended.  An update whose body passes validation, on an identifier
    that a stored course has, replaces every field of the [Course] model in
    the first such document: a field the body provides is set to the
    validated value of what is provided, and a field the body does not
    provide is set to the default of the schema ([None]; [false] for
    [published]; the empty list for [tags]).  [updated_at] is set to the
    reading of the clock, which the store keeps to the millisecond.  The
    document keeps its [_id] and its place, and every other document is
    unchanged. *)
Theorem update_course_replaces_every_field {L : Lax} (db : Database)
  (utcnow : datetime) (course_id : string) (members : list (string * json))
  (course : Course.t) (obj_id : object_id) (old : oid * CourseDoc.t) :
  Course.validate (JObject members) = Ok course ->
  ObjectId course_id = Ok obj_id ->
  find_one [("_id", QOid obj_id)] (db_course db) = Some old ->
  exists before after,
    db_course db = before ++ old :: after
    /\ find_one [("_id", QOid obj_id)] before = None
    /\ route_update_course utcnow course_id (JObject members) db
       = (Ok "ok",
          {| db_course :=
               before
               ++ (fst old,
                   {| CourseDoc.model := course;
                      CourseDoc.updated_at :=
                        Some (utcnow / 1000 * 1000) |}) :: after;
             db_lesson := db_lesson db;
             db_order := db_order db |})
    /\ assoc "title" members = Some (JStr (Course.title course))
    /\ (exists v,
          assoc "price" members = Some v
          /\ to_float v = Some (Course.price course))
    /\ field_of members "subtitle" (nullable a_str) None
         (Course.subtitle course)
    /\ field_of members "description" (nullable a_str) None
         (Course.description course)
    /\ field_of members "thumbnail_url" (nullable a_str) None
         (Course.thumbnail_url course)
    /\ field_of members "category" (nullable a_str) None
         (Course.category course)
    /\ field_of members "level" (nullable a_str) None (Course.level course)
    /\ field_of members "published" a_bool false (Course.published course)
    /\ field_of members "tags" (nullable a_str_list) (Some [])
         (Course.tags course).
Proof.
  intros V E F.
  destruct (route_update_course_found utcnow course_id _ course obj_id old db
              V E F) as (before & after & S & N & U).
  exists before, after. split; [exact S|]. split; [exact N|].
  split; [exact U|].
  apply Course_validate_ok in V
    as (m & [= <-] & T & Sb & D & P & Th & C & Lv & B & G).
  split; [now apply required_str|].
  split.
  - apply required_float in P as (v & Pa & Pt & _). now exists v.
  - repeat split; now apply defaulted_field_of.
Qed.

Lemma update_course_replaces_every_field_witness :
  exists before after,
    db_course summary_db
    = before
      ++ (oid1, CourseDoc.model_dump (sample_course "Rocq" 10 true)) :: after
    /\ route_update_course 1500 (str oid1) (title_price_body "Rocq" 59)
         summary_db
       = (Ok "ok",
          {| db_course :=
               before
               ++ (oid1,
                   {| CourseDoc.model := title_price_course "Rocq" 59;
                      CourseDoc.updated_at := Some 1000 |}) :: after;
             db_lesson := db_lesson summary_db;
             db_order := db_order summary_db |})
    /\ Course.published (title_price_course "Rocq" 59) = false.
Proof.
  destruct (update_course_replaces_every_field summary_db 1500 (str oid1)
              [("title", JStr "Rocq"); ("price", JFloat 59)]
              (title_price_course "Rocq" 59)
              (object_id_of oid1)
              (oid1, CourseDoc.model_dump (sample_course "Rocq" 10 true))
              eq_refl eq_refl eq_refl)
    as (before & after & S & _ & U & _).
  exists before, after. split; [exact S|]. split; [exact U | reflexivity].
Defined.

(** ** Lesson creation *)

(** A lesson whose [order] does not fit in eight bytes passes validation,
    and is refused by the encoder: the call raises and nothing is stored. *)
Example create_lesson_order_too_large {L : Lax} :
  route_create_lesson oid3 (str oid1) (lesson_body "any" "a" (2 ^ 63)) shop_db
  = (Raise (OverflowError "MongoDB can only handle up to 8-byte ints"),
     shop_db)
  /\ fst (route_create_lesson oid3 (str oid1)
            (lesson_body "any" "a" (2 ^ 63 - 1)) shop_db)
     = Ok (str oid3).
Proof. split; reflexivity. Qed.

(** C8.  For every lesson request, whenever the call returns, one lesson
    has been stored, it is the validated body with the identifier of the
    path for [course_id], whatever [course_id] the body gives, and the call
    returns the new identifier; whenever the call raises, nothing has been
    stored.  So no stored lesson disagrees with the path it was created
    under. *)
Theorem create_lesson_course_id_from_path {L : Lax} (db : Database)
  (_id : oid) (course_id : string) (body : json) :
  (forall returned db',
     route_create_lesson _id course_id body db = (Ok returned, db') ->
     exists lesson stored,
       Lesson.validate body = Ok lesson
       /\ returned = str _id
       /\ db' = {| db_course := db_course db;
                   db_lesson := db_lesson db ++ [(_id, stored)];
                   db_order := db_order db |}
       /\ Lesson.course_id stored = course_id
       /\ Lesson.title stored = Lesson.title lesson
       /\ Lesson.content stored = Lesson.content lesson
       /\ Lesson.video_url stored = Lesson.video_url lesson
       /\ Lesson.order stored = Lesson.order lesson
       /\ Lesson.free_preview stored = Lesson.free_preview lesson)
  /\ (forall e db',
        route_create_lesson _id course_id body db = (Raise e, db') ->
        db' = db).
Proof.
  destruct (Lesson.validate body) as [lesson|e0] eqn:V.
  - rewrite (route_create_lesson_valid _ _ _ lesson db V).
    destruct (Lesson.order lesson <? 2 ^ 63); split.
    + intros returned db' [= <- <-].
      exists lesson, (Lesson.set_course_id course_id lesson).
      repeat split.
    + discriminate.
    + discriminate.
    + now intros e db' [= _ <-].
  - unfold route_create_lesson, with_body. rewrite V. split.
    + discriminate.
    + now intros e db' [= _ <-].
Qed.

Lemma create_lesson_course_id_from_path_witness :
  exists lesson stored,
    Lesson.validate (lesson_body "from the body" "a" 3) = Ok lesson
    /\ Lesson.course_id lesson = "from the body"
    /\ snd (route_create_lesson oid3 (str oid1)
              (lesson_body "from the body" "a" 3) shop_db)
       = {| db_course := db_course shop_db;
            db_lesson := [(oid3, stored)];
            db_order := [] |}
    /\ Lesson.course_id stored = str oid1.
Proof.
  destruct (proj1 (create_lesson_course_id_from_path shop_db oid3 (str oid1)
                     (lesson_body "from the body" "a" 3))
              (str oid3)
              (snd (route_create_lesson oid3 (str oid1)
                      (lesson_body "from the body" "a" 3) shop_db))
              eq_refl)
    as (lesson & stored & V & _ & D & C & _).
  exists lesson, stored. split; [exact V|]. split.
  - revert V. intros [= <-]. reflexivity.
  - split; [exact D | exact C].
Defined.

(** ** The databases the program builds are well formed *)

Lemma well_formed_parts (db : Database) :
  well_formed db = true <->
  forallb (fun d => ge_zero (Course.price (CourseDoc.model (snd d))))
    (db_course db) = true
  /\ forallb (fun d => 0 <=? Lesson.order (snd d)) (db_lesson db) = true
  /\ forallb (fun d => ge_zero (Order.amount (snd d))) (db_order db)
     = true.
Proof.
  unfold well_formed. rewrite !andb_true_iff. tauto.
Qed.

Lemma serve_well_formed {L : Lax} (r : request) (db : Database) :
  well_formed db = true -> well_formed (serve r db) = true.
Proof.
  intros W. pose proof W as W0.
  apply well_formed_parts in W as (Wc & Wl & Wo).
  destruct r as [_id body | utcnow cid body | cid | _id cid body | _id body];
    cbn [serve].
  - destruct (Course.validate body) as [c|e] eqn:V.
    + rewrite (route_create_course_valid _ _ c db V).
      apply Course_validate_price in V.
      apply well_formed_parts. cbn [snd db_course db_lesson db_order].
      rewrite forallb_app, Wc. cbn [forallb snd CourseDoc.model_dump
                                      CourseDoc.model andb].
      unfold ge_zero. now rewrite V.
    + unfold route_create_course, with_body. now rewrite V.
  - unfold route_update_course, with_body.
    destruct (Course.validate body) as [c|e] eqn:V; [|exact W0].
    apply Course_validate_price in V.
    unfold update_course.
    destruct (ObjectId cid) as [o|e]; cbn [try_except]; [|exact W0].
    assert (S : forall d : oid * CourseDoc.t,
               ge_zero
                 (Course.price
                    (CourseDoc.model
                       (snd (fst d, set_update_data c utcnow (snd d)))))
               = true).
    { intros d. exact V. }
    pose proof (update_one_forallb _ [("_id", QOid o)]
                  (set_update_data c utcnow) (db_course db) S Wc) as U.
    destruct (update_one _ _ _) as [n docs]. cbn [snd] in U.
    apply well_formed_parts.
    destruct (n =? 0); cbn [snd db_set db_course db_lesson db_order];
      now rewrite U.
  - unfold delete_course.
    destruct (ObjectId cid) as [o|e]; cbn [try_except]; [|exact W0].
    pose proof (delete_one_forallb _ [("_id", QOid o)] (db_course db) Wc)
      as U.
    destruct (delete_one _ _) as [n docs]. cbn [snd] in U.
    apply well_formed_parts.
    destruct (n =? 0); cbn [snd db_set db_course db_lesson db_order];
      now rewrite U.
  - destruct (Lesson.validate body) as [l|e] eqn:V.
    + rewrite (route_create_lesson_valid _ _ _ l db V).
      destruct (Lesson.order l <? 2 ^ 63); [|exact W0].
      apply Lesson_validate_ok in V as (m & _ & _ & _ & _ & G).
      apply well_formed_parts. cbn [snd db_course db_lesson db_order].
      rewrite forallb_app, Wl.
      cbn [forallb snd Lesson.set_course_id Lesson.order andb].
      repeat split; try assumption.
      rewrite andb_true_r. now apply Z.leb_le.
    + unfold route_create_lesson, with_body. now rewrite V.
  - unfold route_create_order, with_body.
    destruct (OrderIn.validate body) as [o|e]; [|exact W0].
    unfold create_order.
    destruct (ObjectId _) as [obj|e]; [|exact W0].
    destruct (find_one _ _) as [c|]; [|exact W0].
    unfold Order.new, check_ge_float.
    destruct (PrimFloat.leb 0 _) eqn:G; cbn [bind_result]; [|exact W0].
    rewrite create_document_order.
    apply well_formed_parts. cbn [snd db_course db_lesson db_order].
    rewrite forallb_app, Wo. cbn [forallb snd Order.amount andb].
    unfold ge_zero. now rewrite G.
Qed.

(** Every database built from the empty one by the requests that write is
    well formed. *)
Lemma reachable_well_formed {L : Lax} (db : Database) :
  reachable db -> well_formed db = true.
Proof.
  induction 1 as [|r db R IH]; [reflexivity|].
  now apply serve_well_formed.
Qed.

(** * Further properties of the handlers *)

(** ** Identifiers *)

Lemma oid_ext (a b : oid) : hex a = hex b -> a = b.
Proof.
  destruct a as [x p], b as [y q]. cbn. intros ->. f_equal.
  apply UIP_dec. apply bool_dec.
Qed.

Lemma digit_value_spec (c : ascii) (t : N) :
  digit_value c = Some t ->
  (t < 16)%N /\ hex_digit t = lower c
  /\ is_continuation c = false /\ is_space c = false.
Proof.
  destruct c as [[] [] [] [] [] [] [] []]; vm_compute;
    intros E; try discriminate E; injection E as <-; repeat split.
Qed.

Lemma is_space_spec (c : ascii) :
  is_space c = true -> is_continuation c = false.
Proof.
  destruct c as [[] [] [] [] [] [] [] []]; vm_compute;
    intros E; try discriminate E; reflexivity.
Qed.

Lemma lower_hex_digit_spec (c : ascii) :
  is_lower_hex_digit c = true ->
  lower c = c /\ exists t, digit_value c = Some t.
Proof.
  destruct c as [[] [] [] [] [] [] [] []]; vm_compute;
    intros E; try discriminate E; split; eauto.
Qed.

Lemma byte_digits (t u : N) :
  (t < 16)%N -> (u < 16)%N ->
  (N_of_ascii (ascii_of_N (16 * t + u)) / 16 = t
   /\ N_of_ascii (ascii_of_N (16 * t + u)) mod 16 = u)%N.
Proof.
  intros T U. rewrite N_ascii_embedding by lia. split.
  - symmetry. apply (N.div_unique _ 16 t u); lia.
  - symmetry. apply (N.mod_unique _ 16 t u); lia.
Qed.

Lemma Some_eq {A : Type} (x y : A) : Some x = Some y -> x = y.
Proof. congruence. Qed.

Lemma fromhex_cons (c : ascii) (rest : string) :
  fromhex (String c rest)
  = if is_space c then fromhex rest
    else
      match rest with
      | EmptyString => None
      | String d rest' =>
          match digit_value c, digit_value d, fromhex rest' with
          | Some top, Some bot, Some bytes =>
              Some (String (ascii_of_N (16 * top + bot)) bytes)
          | _, _, _ => None
          end
      end.
Proof. reflexivity. Qed.

Lemma hexlify_cons (b : ascii) (rest : string) :
  hexlify (String b rest)
  = String (hex_digit (N_of_ascii b / 16))
      (String (hex_digit (N_of_ascii b mod 16)) (hexlify rest)).
Proof. reflexivity. Qed.

(** What [fromhex] accepts is made of digits and white space; the rendering
    of the bytes is not longer than the string, and when it is as long, it
    is the string in lower case. *)
Lemma fromhex_spec (n : nat) (s bytes : string) :
  (String.length s <= n)%nat ->
  fromhex s = Some bytes ->
  (String.length (hexlify bytes) <= String.length s)%nat
  /\ len s = String.length s
  /\ (String.length (hexlify bytes) = String.length s ->
      hexlify bytes = lower_hex s).
Proof.
  revert s bytes. induction n as [|n IH]; intros s bytes B.
  - destruct s; [|cbn in B; lia]. cbn. intros [= <-]. repeat split; auto.
  - destruct s as [|c rest]; [cbn; intros [= <-]; repeat split; auto|].
    rewrite fromhex_cons. destruct (is_space c) eqn:Sp.
    + intros F. cbn [String.length] in B.
      destruct (IH rest bytes ltac:(lia) F) as (Le & Ln & _).
      cbn [String.length len]. rewrite (is_space_spec c Sp), Ln.
      split; [lia|]. split; [lia|]. intros E. lia.
    + destruct rest as [|d rest']; [discriminate|].
      destruct (digit_value c) as [t|] eqn:Dc; [|discriminate].
      destruct (digit_value d) as [u|] eqn:Dd; [|discriminate].
      destruct (fromhex rest') as [bytes'|] eqn:F; [|discriminate].
      intros E. apply Some_eq in E. rewrite <- E. clear E.
      cbn [String.length] in B.
      destruct (IH rest' bytes' ltac:(lia) F) as (Le & Ln & Eq).
      destruct (digit_value_spec c t Dc) as (Tt & Hc & Cc & _).
      destruct (digit_value_spec d u Dd) as (Tu & Hd & Cd & _).
      destruct (byte_digits t u Tt Tu) as (Q & R).
      rewrite hexlify_cons, Q, R, Hc, Hd.
      cbn [String.length len lower_hex]. rewrite Cc, Cd, Ln.
      repeat split; try lia.
      intros E. rewrite Eq by lia. reflexivity.
Qed.

(** The rendering of a stored identifier is read back as its bytes. *)
Lemma fromhex_lower (n : nat) (h : string) :
  String.length h = (2 * n)%nat -> all_lower_hex h = true ->
  exists bytes, fromhex h = Some bytes /\ hexlify bytes = h.
Proof.
  revert h. induction n as [|n IH]; intros h Ln A.
  - destruct h; [|discriminate]. now exists EmptyString.
  - destruct h as [|c [|d rest]]; try (cbn in Ln; lia).
    cbn [all_lower_hex] in A.
    apply andb_prop in A as [Ac A]. apply andb_prop in A as [Ad A].
    destruct (lower_hex_digit_spec c Ac) as (Lc & t & Dc).
    destruct (lower_hex_digit_spec d Ad) as (Ld & u & Dd).
    destruct (IH rest ltac:(cbn in Ln; lia) A) as (bytes & F & H).
    destruct (digit_value_spec c t Dc) as (Tt & Hc & _ & Sc).
    destruct (digit_value_spec d u Dd) as (Tu & Hd & _ & _).
    destruct (byte_digits t u Tt Tu) as (Q & R).
    exists (String (ascii_of_N (16 * t + u)) bytes).
    rewrite fromhex_cons, hexlify_cons, Sc, Dc, Dd, F, Q, R, Hc, Hd, Lc, Ld, H.
    split; reflexivity.
Qed.

Lemma oid_hex (o : oid) :
  String.length (hex o) = 24%nat
  /\ exists bytes, fromhex (hex o) = Some bytes /\ hexlify bytes = hex o.
Proof.
  destruct o as [h p]. cbn [hex]. unfold canonical in p.
  apply andb_prop in p as [Ln A]. apply Nat.eqb_eq in Ln.
  split; [exact Ln|]. exact (fromhex_lower 12 h Ln A).
Qed.

(** The rendering of a stored identifier parses to the identifier with the
    same bytes. *)
Lemma ObjectId_str (o : oid) :
  ObjectId (str o) = Ok (object_id_of o)
  /\ hexlify (binary (object_id_of o)) = hex o.
Proof.
  destruct (oid_hex o) as (Ln & bytes & F & H).
  unfold ObjectId, object_id_of, str. rewrite F.
  destruct (fromhex_spec _ _ _ (Nat.le_refl _) F) as (_ & Lc & _).
  rewrite Lc, Ln. cbn [Nat.eqb binary]. now split.
Qed.

Lemma oid_eqb_eq (a b : oid) : oid_eqb (object_id_of a) b = true -> a = b.
Proof.
  unfold oid_eqb. rewrite (proj2 (ObjectId_str a)).
  intros E. apply String.eqb_eq in E. now apply oid_ext.
Qed.

Lemma oid_eqb_refl (a : oid) : oid_eqb (object_id_of a) a = true.
Proof.
  unfold oid_eqb. rewrite (proj2 (ObjectId_str a)). apply String.eqb_refl.
Qed.

(** ** Looking one document up *)

Section Lookup.
Context {D : Type} `{Document D}.

Lemma find_one_id_fst (o : object_id) (c : list (oid * D)) (d : oid * D) :
  find_one [("_id", QOid o)] c = Some d ->
  hexlify (binary o) = hex (fst d) /\ In d c.
Proof.
  unfold find_one. intros F. apply find_some in F as [I M].
  rewrite matches_id in M. split; [|exact I].
  now apply String.eqb_eq.
Qed.

(** A lookup by identifier depends on the bytes only. *)
Lemma find_one_same_bytes (a b : object_id) (c : list (oid * D)) :
  hexlify (binary a) = hexlify (binary b) ->
  find_one [("_id", QOid a)] c = find_one [("_id", QOid b)] c.
Proof.
  intros E. unfold find_one. induction c as [|x c IH]; [reflexivity|].
  cbn [List.find]. rewrite !matches_id. unfold oid_eqb. rewrite E.
  now rewrite IH.
Qed.

Lemma find_one_middle (q : query) (before after : list (oid * D))
  (d : oid * D) :
  find_one q before = None -> matches q d = true ->
  find_one q (before ++ d :: after) = Some d.
Proof.
  unfold find_one. induction before as [|x before IH]; cbn [app List.find].
  - intros _ M. now rewrite M.
  - destruct (matches q x); [discriminate|]. exact IH.
Qed.

Lemma find_one_skip (q : query) (before after : list (oid * D)) :
  find_one q before = None ->
  find_one q (before ++ after) = find_one q after.
Proof.
  unfold find_one. induction before as [|x before IH]; cbn [app List.find].
  - reflexivity.
  - destruct (matches q x); [discriminate|]. exact IH.
Qed.

Lemma find_one_no_bytes (o : object_id) (c : list (oid * D)) :
  ~ In (hexlify (binary o)) (map (fun d => hex (fst d)) c) ->
  find_one [("_id", QOid o)] c = None.
Proof.
  unfold find_one. induction c as [|x c IH]; cbn [map List.find In].
  - reflexivity.
  - intros N. rewrite matches_id. unfold oid_eqb.
    destruct (String.eqb_spec (hexlify (binary o)) (hex (fst x))) as [E|E].
    + exfalso. apply N. left. now symmetry.
    + apply IH. intros I. apply N. now right.
Qed.

Lemma find_one_present (c : list (oid * D)) (d : oid * D) :
  NoDup (map fst c) -> In d c ->
  find_one [("_id", QOid (object_id_of (fst d)))] c = Some d.
Proof.
  unfold find_one. induction c as [|x c IH]; cbn [map In List.find];
    [intros _ []|].
  intros U I. rewrite matches_id. apply NoDup_cons_iff in U as [N U].
  destruct (oid_eqb (object_id_of (fst d)) (fst x)) eqn:E.
  - destruct I as [-> | I]; [reflexivity|].
    apply oid_eqb_eq in E. exfalso. apply N. rewrite <- E.
    now apply in_map.
  - destruct I as [-> | I]; [now rewrite oid_eqb_refl in E|].
    now apply IH.
Qed.

(** The first match is removed; the documents before it and after it stay,
    in their order. *)
Lemma delete_one_match (q : query) (c : list (oid * D)) (old : oid * D) :
  find_one q c = Some old ->
  exists before after,
    c = before ++ old :: after
    /\ find_one q before = None
    /\ delete_one q c = (1, before ++ after).
Proof.
  unfold find_one. induction c as [|d c IH]; simpl; [discriminate|].
  destruct (matches q d) eqn:M.
  - intros [= ->]. exists [], c. repeat split.
  - intros F. destruct (IH F) as (before & after & -> & N & U).
    exists (d :: before), after. simpl. rewrite M, U. repeat split.
    exact N.
Qed.

Lemma update_one_ids (q : query) (set : D -> D) (c : list (oid * D)) :
  map fst (snd (update_one q set c)) = map fst c.
Proof.
  induction c as [|d c IH]; cbn [update_one]; [reflexivity|].
  destruct (matches q d); [reflexivity|].
  destruct (update_one q set c) as [n c']. cbn [snd map] in *.
  now rewrite IH.
Qed.

End Lookup.

Lemma CourseOut_new_validated {L : Lax} (body : json) (course : Course.t)
  (id : string) (updated_at : option datetime) :
  Course.validate body = Ok course ->
  CourseOut.new id
    {| CourseDoc.model := course; CourseDoc.updated_at := updated_at |}
  = Ok {| CourseOut.id := id; CourseOut.course := course |}.
Proof.
  intros V. apply Course_validate_price in V.
  unfold CourseOut.new, check_ge_float. cbn [CourseDoc.model].
  now rewrite V.
Qed.

Lemma CourseOut_new_id (id : string) (d : CourseDoc.t) (out : CourseOut.t) :
  CourseOut.new id d = Ok out ->
  out = {| CourseOut.id := id; CourseOut.course := CourseDoc.model d |}.
Proof.
  unfold CourseOut.new, check_ge_float.
  destruct (PrimFloat.leb 0 _); [|discriminate].
  cbn [bind_result]. now intros [= <-].
Qed.

(** ** Creating a course, then reading it *)

(** X1.  A course created from a body that passes validation can be fetched
    under the identifier the creation returns, and comes back with the
    validated fields, when the identifier the store assigns is one that no
    stored course has yet. *)
Theorem create_course_then_get {L : Lax} (db : Database) (_id : oid)
  (body : json) (course : Course.t) :
  Course.validate body = Ok course ->
  find_one [("_id", QOid (object_id_of _id))] (db_course db) = None ->
  exists returned db',
    route_create_course _id body db = (Ok returned, db')
    /\ get_course returned db'
       = Ok {| CourseOut.id := returned; CourseOut.course := course |}.
Proof.
  intros V F.
  exists (str _id),
    {| db_course := db_course db ++ [(_id, CourseDoc.model_dump course)];
       db_lesson := db_lesson db; db_order := db_order db |}.
  split; [now apply route_create_course_valid|].
  unfold get_course. rewrite (proj1 (ObjectId_str _id)).
  cbn [try_except bind_result db_course].
  rewrite (find_one_middle _ _ [] (_id, CourseDoc.model_dump course) F)
    by (rewrite matches_id; apply oid_eqb_refl).
  cbn [fst snd]. apply (CourseOut_new_validated _ _ _ _ V).
Qed.

Lemma create_course_then_get_witness :
  exists returned db',
    route_create_course oid2 (title_price_body "Logic" 12.5) shop_db
    = (Ok returned, db')
    /\ get_course returned db'
       = Ok {| CourseOut.id := returned;
               CourseOut.course := title_price_course "Logic" 12.5 |}.
Proof.
  exact (create_course_then_get shop_db oid2 (title_price_body "Logic" 12.5)
           _ eq_refl eq_refl).
Defined.

(** X2.  In a well-formed database, a course created from a body that
    passes validation is listed last: the unfiltered listing grows by the
    new course, and a listing filtered on [published] grows by it exactly
    when the new course has that publish state. *)
Theorem create_course_then_list {L : Lax} (db : Database) (_id : oid)
  (body : json) (course : Course.t) (b : bool) :
  well_formed db = true ->
  Course.validate body = Ok course ->
  let db' := snd (route_create_course _id body db) in
  let created :=
    {| CourseOut.id := str _id; CourseOut.course := course |} in
  exists listed filtered,
    list_courses None db = Ok listed
    /\ list_courses None db' = Ok (listed ++ [created])
    /\ list_courses (Some b) db = Ok filtered
    /\ list_courses (Some b) db'
       = Ok (filtered
             ++ (if Bool.eqb (Course.published course) b
                 then [created] else [])).
Proof.
  intros W V db' created.
  assert (W' : well_formed db' = true)
    by exact (serve_well_formed (POST_course _id body) db W).
  assert (E : db_course db'
              = db_course db ++ [(_id, CourseDoc.model_dump course)]).
  { unfold db'. now rewrite (route_create_course_valid _ _ course db V). }
  exists (map course_out (db_course db)),
    (map course_out
       (filter (fun d => Bool.eqb (is_published d) b) (db_course db))).
  unfold list_courses, get_documents. cbn [db_get].
  rewrite !find_published, !find_all, E. repeat split.
  - apply for_each_ok. intros d I. now apply (CourseOut_new_ok db).
  - rewrite <- E. rewrite (for_each_ok _ course_out).
    + now rewrite E, map_app.
    + intros d I. now apply (CourseOut_new_ok db').
  - apply for_each_ok. intros d I. apply filter_In in I as [I _].
    now apply (CourseOut_new_ok db).
  - rewrite (for_each_ok _ course_out).
    + rewrite filter_app, map_app. cbn [filter].
      unfold is_published at 2. cbn [snd CourseDoc.model_dump CourseDoc.model].
      now destruct (Bool.eqb (Course.published course) b).
    + intros d I. apply filter_In in I as [I _]. rewrite <- E in I.
      now apply (CourseOut_new_ok db').
Qed.

Lemma create_course_then_list_witness :
  exists listed filtered,
    list_courses None summary_db = Ok listed
    /\ list_courses None
         (snd (route_create_course oid5 (title_price_body "Logic" 12.5)
                 summary_db))
       = Ok (listed
             ++ [ {| CourseOut.id := str oid5;
                     CourseOut.course := title_price_course "Logic" 12.5 |} ])
    /\ list_courses (Some true) summary_db = Ok filtered
    /\ list_courses (Some true)
         (snd (route_create_course oid5 (title_price_body "Logic" 12.5)
                 summary_db))
       = Ok (filtered ++ []).
Proof.
  exact (create_course_then_list summary_db oid5
           (title_price_body "Logic" 12.5) _ true eq_refl eq_refl).
Defined.

(** ** Reading a course *)

(** X3.  The [id] that [get_course] reports is the lower-case rendering of
    the identifier asked for, and asking for that [id] gives the same
    answer again. *)
Theorem get_course_id_canonical (db : Database) (course_id : string)
  (out : CourseOut.t) :
  get_course course_id db = Ok out ->
  CourseOut.id out = lower_hex course_id
  /\ get_course (CourseOut.id out) db = Ok out.
Proof.
  unfold get_course.
  destruct (ObjectId course_id) as [o|e] eqn:P; [|discriminate].
  cbn [try_except bind_result].
  destruct (find_one _ _) as [doc|] eqn:F; [|discriminate].
  intros N. pose proof (CourseOut_new_id _ _ _ N) as E.
  destruct (find_one_id_fst _ _ _ F) as [Fo _].
  destruct (ObjectId_str (fst doc)) as [P' B].
  assert (I : CourseOut.id out = str (fst doc)) by now rewrite E.
  rewrite I. split.
  - unfold ObjectId in P.
    destruct (Nat.eqb (len course_id) 24) eqn:Ln; [|discriminate].
    destruct (fromhex course_id) as [bytes|] eqn:H; [|discriminate].
    injection P as <-. cbn [binary] in Fo. apply Nat.eqb_eq in Ln.
    destruct (fromhex_spec _ _ _ (Nat.le_refl _) H) as (_ & Lc & Eq).
    unfold str. rewrite <- Fo. apply Eq.
    rewrite Fo, (proj1 (oid_hex (fst doc))). congruence.
  - rewrite P'. cbn [try_except bind_result].
    rewrite (find_one_same_bytes (object_id_of (fst doc)) o)
      by (now rewrite B).
    now rewrite F.
Qed.

Lemma get_course_id_canonical_witness :
  CourseOut.id (course_out
                  (oid1, CourseDoc.model_dump (sample_course "Rocq" 49.99 true)))
  = lower_hex "64B7F0A1C2D3E4F5A6B7C8D1"
  /\ get_course "64b7f0a1c2d3e4f5a6b7c8d1" shop_db
     = Ok (course_out
             (oid1, CourseDoc.model_dump (sample_course "Rocq" 49.99 true))).
Proof.
  exact (get_course_id_canonical shop_db "64B7F0A1C2D3E4F5A6B7C8D1"
           (course_out
              (oid1, CourseDoc.model_dump (sample_course "Rocq" 49.99 true)))
           eq_refl).
Defined.

(** ** Deleting a course *)

(** X4.  Deleting a course under an identifier that a stored course has
    removes the first such document and nothing else: the courses before it
    and after it stay in their order, and the lessons and the orders are
    left as they are. *)
Theorem delete_course_removes_one (db : Database) (course_id : string)
  (obj_id : object_id) (old : oid * CourseDoc.t) :
  ObjectId course_id = Ok obj_id ->
  find_one [("_id", QOid obj_id)] (db_course db) = Some old ->
  exists before after,
    db_course db = before ++ old :: after
    /\ find_one [("_id", QOid obj_id)] before = None
    /\ delete_course course_id db
       = (Ok "ok",
          {| db_course := before ++ after;
             db_lesson := db_lesson db;
             db_order := db_order db |}).
Proof.
  intros P F.
  destruct (delete_one_match _ _ _ F) as (before & after & S & N & U).
  exists before, after. split; [exact S|]. split; [exact N|].
  unfold delete_course. rewrite P. cbn [try_except]. now rewrite U.
Qed.

Lemma delete_course_removes_one_witness :
  exists before after,
    db_course summary_db
    = before
      ++ (oid2, CourseDoc.model_dump (sample_course "Draft" 15.5 false))
         :: after
    /\ delete_course (str oid2) summary_db
       = (Ok "ok",
          {| db_course := before ++ after;
             db_lesson := db_lesson summary_db;
             db_order := db_order summary_db |}).
Proof.
  destruct (delete_course_removes_one summary_db (str oid2)
              (object_id_of oid2)
              (oid2, CourseDoc.model_dump (sample_course "Draft" 15.5 false))
              eq_refl eq_refl)
    as (before & after & S & _ & U).
  exists before, after. split; [exact S | exact U].
Defined.

(** X5.  Deletion does not cascade.  Whatever the outcome of
    [delete_course], the lessons of every course are listed as before, and
    the sales and the revenue of the summary are what they were: the lessons
    and the orders of a deleted course stay in the store. *)
Theorem delete_course_does_not_cascade (db : Database)
  (course_id : string) :
  let db' := snd (delete_course course_id db) in
  (forall lessons_of, list_lessons lessons_of db' = list_lessons lessons_of db)
  /\ AdminSummary.total_lessons (admin_summary db')
     = AdminSummary.total_lessons (admin_summary db)
  /\ AdminSummary.total_sales (admin_summary db')
     = AdminSummary.total_sales (admin_summary db)
  /\ AdminSummary.revenue (admin_summary db')
     = AdminSummary.revenue (admin_summary db).
Proof.
  cbv zeta.
  assert (E : db_lesson (snd (delete_course course_id db)) = db_lesson db
              /\ db_order (snd (delete_course course_id db)) = db_order db).
  { unfold delete_course.
    destruct (ObjectId course_id); cbn [try_except]; [|now split].
    destruct (delete_one _ _) as [n docs].
    destruct (n =? 0); now split. }
  destruct E as [El Eo].
  unfold list_lessons, get_documents, admin_summary. cbn [db_get].
  cbn [AdminSummary.total_lessons AdminSummary.total_sales
         AdminSummary.revenue].
  rewrite El, Eo. repeat split.
Qed.

(** X6.  When the stored courses have pairwise distinct identifiers, a
    course that has been deleted is gone: fetching it, or deleting it a
    second time, fails with the 404 error. *)
Theorem delete_course_then_not_found (db : Database) (course_id : string)
  (obj_id : object_id) (old : oid * CourseDoc.t) :
  NoDup (map fst (db_course db)) ->
  ObjectId course_id = Ok obj_id ->
  find_one [("_id", QOid obj_id)] (db_course db) = Some old ->
  let db' := snd (delete_course course_id db) in
  fst (delete_course course_id db) = Ok "ok"
  /\ get_course course_id db' = Raise (HTTPException 404 "Course not found")
  /\ delete_course course_id db'
     = (Raise (HTTPException 404 "Course not found"), db').
Proof.
  intros U P F db'.
  destruct (delete_one_match _ _ _ F) as (before & after & S & N & D1).
  assert (D : delete_course course_id db
              = (Ok "ok",
                 {| db_course := before ++ after;
                    db_lesson := db_lesson db;
                    db_order := db_order db |})).
  { unfold delete_course. rewrite P. cbn [try_except]. now rewrite D1. }
  assert (A : find_one [("_id", QOid obj_id)] (db_course db') = None).
  { unfold db'. rewrite D. cbn [snd db_course].
    rewrite (find_one_skip _ _ _ N). apply find_one_no_bytes.
    rewrite S, map_app in U. cbn [map] in U.
    apply NoDup_remove_2 in U.
    destruct (find_one_id_fst _ _ _ F) as [Fo _]. rewrite Fo.
    intros I. apply in_map_iff in I as (x & Ex & Ix).
    apply oid_ext in Ex. apply U, in_or_app. right.
    rewrite <- Ex. now apply in_map. }
  split; [now rewrite D|].
  unfold get_course, delete_course at 1. rewrite P.
  cbn [try_except bind_result]. rewrite A.
  rewrite (delete_one_no_match _ _ A). cbn -[db_set].
  now rewrite db_set_course_same.
Qed.

Lemma delete_course_then_not_found_witness :
  fst (delete_course (str oid1) summary_db) = Ok "ok"
  /\ get_course (str oid1) (snd (delete_course (str oid1) summary_db))
     = Raise (HTTPException 404 "Course not found")
  /\ delete_course (str oid1) (snd (delete_course (str oid1) summary_db))
     = (Raise (HTTPException 404 "Course not found"),
        snd (delete_course (str oid1) summary_db)).
Proof.
  apply (delete_course_then_not_found summary_db (str oid1)
           (object_id_of oid1)
           (oid1, CourseDoc.model_dump (sample_course "Rocq" 10 true))).
  - repeat constructor; cbn; intuition discriminate.
  - reflexivity.
  - reflexivity.
Defined.

(** ** Updating a course *)

(** X7.  After an update whose body passes validation, on an identifier
    that a stored course has, fetching that identifier returns the validated
    fields of the body under the identifier of the course; the
    [updated_at] stamp is not part of the answer. *)
Theorem update_course_then_get {L : Lax} (db : Database) (utcnow : datetime)
  (course_id : string) (body : json) (course : Course.t)
  (obj_id : object_id) (old : oid * CourseDoc.t) :
  Course.validate body = Ok course ->
  ObjectId course_id = Ok obj_id ->
  find_one [("_id", QOid obj_id)] (db_course db) = Some old ->
  fst (route_update_course utcnow course_id body db) = Ok "ok"
  /\ get_course course_id
       (snd (route_update_course utcnow course_id body db))
     = Ok {| CourseOut.id := str (fst old); CourseOut.course := course |}.
Proof.
  intros V P F.
  destruct (route_update_course_found utcnow course_id body course obj_id
              old db V P F) as (before & after & S & N & R).
  rewrite R. split; [reflexivity|].
  unfold get_course. rewrite P. cbn [try_except bind_result snd db_course].
  rewrite (find_one_middle _ _ after _ N).
  - cbn [fst snd]. apply (CourseOut_new_validated _ _ _ _ V).
  - apply find_some in F as [_ M]. rewrite matches_id in *. exact M.
Qed.

Lemma update_course_then_get_witness :
  get_course (str oid1)
    (snd (route_update_course 1000 (str oid1) (title_price_body "Rocq" 59)
            summary_db))
  = Ok {| CourseOut.id := str oid1;
          CourseOut.course := title_price_course "Rocq" 59 |}.
Proof.
  exact (proj2 (update_course_then_get summary_db 1000 (str oid1)
                  (title_price_body "Rocq" 59) _ (object_id_of oid1)
                  (oid1, CourseDoc.model_dump (sample_course "Rocq" 10 true))
                  eq_refl eq_refl eq_refl)).
Defined.



(** ** Lessons *)




(** X11.  In a well-formed database, when a lesson creation returns, the
    lesson is then listed under the path it was created under, with the
    identifier the creation returned; the listing under that path is the
    former one and the new lesson, in some order.  The listing under any
    other string is what it was: lessons are matched on the exact string of
    the path. *)
Theorem create_lesson_then_list {L : Lax} (db db' : Database) (_id : oid)
  (course_id : string) (body : json) (returned : string) :
  well_formed db = true ->
  route_create_lesson _id course_id body db = (Ok returned, db') ->
  (exists lesson before after,
     Lesson.validate body = Ok lesson
     /\ list_lessons course_id db = Ok before
     /\ list_lessons course_id db' = Ok after
     /\ In {| LessonOut.id := returned;
              LessonOut.lesson := Lesson.set_course_id course_id lesson |}
          after
     /\ Permutation
          ({| LessonOut.id := returned;
              LessonOut.lesson := Lesson.set_course_id course_id lesson |}
           :: before) after)
  /\ (forall other,
        other <> course_id ->
        list_lessons other db' = list_lessons other db).
Proof.
  intros W R.
  assert (W' : well_formed db' = true).
  { change db' with (snd (Ok returned, db')). rewrite <- R.
    exact (serve_well_formed (POST_lesson _id course_id body) db W). }
  destruct (Lesson.validate body) as [lesson|e] eqn:V;
    [|unfold route_create_lesson, with_body in R; rewrite V in R;
      discriminate R].
  rewrite (route_create_lesson_valid _ _ _ lesson db V) in R.
  destruct (Lesson.order lesson <? 2 ^ 63); [|discriminate R].
  injection R as <- <-.
  set (created := {| LessonOut.id := str _id;
                     LessonOut.lesson :=
                       Lesson.set_course_id course_id lesson |}).
  set (db' := {| db_course := db_course db;
                 db_lesson :=
                   db_lesson db
                   ++ [(_id, Lesson.set_course_id course_id lesson)];
                 db_order := db_order db |}) in *.
  assert (E : db_lesson db'
              = db_lesson db
                ++ [(_id, Lesson.set_course_id course_id lesson)])
    by reflexivity.
  split.
  - exists lesson,
      (Py.sort LessonOut.order
         (map lesson_out (filter (of_course course_id) (db_lesson db)))),
      (Py.sort LessonOut.order
         (map lesson_out (filter (of_course course_id) (db_lesson db')))).
    assert (Ls : forall d, list_lessons course_id d
                          = bind_result
                              (for_each
                                 (fun x => LessonOut.new (str (fst x)) (snd x))
                                 (filter (of_course course_id) (db_lesson d)))
                              (fun r => Ok (Py.sort LessonOut.order r))).
    { intros d. unfold list_lessons, get_documents. cbn [db_get].
      now rewrite find_course_id. }
    assert (P : Permutation
                  (created
                   :: map lesson_out
                        (filter (of_course course_id) (db_lesson db)))
                  (map lesson_out
                     (filter (of_course course_id) (db_lesson db')))).
    { assert (Hc : of_course course_id
                     (_id, Lesson.set_course_id course_id lesson) = true)
        by apply String.eqb_refl.
      rewrite E, filter_app, map_app. cbn [filter]. rewrite Hc. cbn [map].
      apply Permutation_cons_append. }
    split; [reflexivity|]. split; [|split; [|split]].
    + rewrite Ls, (for_each_ok _ lesson_out); [reflexivity|].
      intros d I. apply filter_In in I as [I _].
      now apply (LessonOut_new_ok db).
    + rewrite Ls, (for_each_ok _ lesson_out); [reflexivity|].
      intros d I. apply filter_In in I as [I _].
      now apply (LessonOut_new_ok db').
    + eapply Permutation_in; [apply sort_perm|].
      eapply Permutation_in; [exact P|]. now left.
    + eapply Permutation_trans; [|apply sort_perm].
      eapply Permutation_trans; [|exact P].
      apply perm_skip. symmetry. apply sort_perm.
  - intros other N. unfold list_lessons, get_documents. cbn [db_get].
    assert (Hc : of_course other
                   (_id, Lesson.set_course_id course_id lesson) = false).
    { unfold of_course. cbn [snd Lesson.set_course_id Lesson.course_id].
      apply String.eqb_neq. congruence. }
    rewrite !find_course_id, E, filter_app. cbn [filter]. rewrite Hc.
    now rewrite app_nil_r.
Qed.

Lemma create_lesson_then_list_witness :
  (exists before after,
     list_lessons (str oid1) shop_db = Ok before
     /\ list_lessons (str oid1)
          (snd (route_create_lesson oid3 (str oid1)
                  (lesson_body "from the body" "a" 3) shop_db))
        = Ok after
     /\ In {| LessonOut.id := str oid3;
              LessonOut.lesson :=
                {| Lesson.course_id := str oid1; Lesson.title := "a";
                   Lesson.content := None; Lesson.video_url := None;
                   Lesson.order := 3; Lesson.free_preview := false |} |}
          after)
  /\ list_lessons "64B7F0A1C2D3E4F5A6B7C8D1"
       (snd (route_create_lesson oid3 (str oid1)
               (lesson_body "from the body" "a" 3) shop_db))
     = list_lessons "64B7F0A1C2D3E4F5A6B7C8D1" shop_db.
Proof.
  destruct (create_lesson_then_list shop_db
              (snd (route_create_lesson oid3 (str oid1)
                      (lesson_body "from the body" "a" 3) shop_db))
              oid3 (str oid1) (lesson_body "from the body" "a" 3) (str oid3)
              eq_refl eq_refl)
    as ((lesson & before & after & V & B & A & I & _) & O).
  split.
  - exists before, after. split; [exact B|]. split; [exact A|].
    revert V I. intros [= <-]. exact (fun I => I).
  - apply O. discriminate.
Defined.

(** ** Orders and the summary *)

(** X10.  An order request fails validation exactly when its body misses
    [course_id], [buyer_name] or [buyer_email], or has something else than a
    string there; [course_id] is then not even parsed, so a malformed
    [course_id] in a body that misses a buyer field fails validation and is
    no server error.  The answer is 422 when no number of the body is a NaN
    or an infinity. *)
Theorem create_order_body_rules (db : Database) (_id : oid)
  (members : list (string * json)) :
  ((exists errors,
      fst (route_create_order _id (JObject members) db)
      = Raise (RequestValidationError errors))
   <-> (exists name,
          In name ["course_id"; "buyer_name"; "buyer_email"]
          /\ forall s, assoc name members <> Some (JStr s)))
  /\ (forall errors,
        fst (route_create_order _id (JObject members) db)
        = Raise (RequestValidationError errors) ->
        route_create_order _id (JObject members) db
        = (Raise (RequestValidationError errors), db)
        /\ (finite (JObject members) = true ->
            response_status (RequestValidationError errors) = 422)).
Proof.
  assert (H : forall errors,
             fst (route_create_order _id (JObject members) db)
             = Raise (RequestValidationError errors) ->
             OrderIn.validate (JObject members)
             = Raise (RequestValidationError errors)).
  { intros errors. unfold route_create_order, with_body.
    destruct (OrderIn.validate (JObject members)) as [order|e];
      [|now intros [= <-]].
    unfold create_order.
    destruct (ObjectId (OrderIn.course_id order)) as [o|e] eqn:P.
    - destruct (find_one _ _) as [c|]; [|discriminate].
      unfold Order.new, check_ge_float.
      destruct (PrimFloat.leb 0 _); cbn [bind_result]; [|discriminate].
      rewrite create_document_order. discriminate.
    - rewrite (ObjectId_raises _ _ P). discriminate. }
  split; [split|].
  - intros (errors & R). apply H in R.
    destruct (assoc "course_id" members) as [c|] eqn:Ec;
      [|exists "course_id"; split; [now left | now rewrite Ec]].
    destruct (assoc "buyer_name" members) as [n|] eqn:En;
      [|exists "buyer_name"; split; [now right; left | now rewrite En]].
    destruct (assoc "buyer_email" members) as [m|] eqn:Em;
      [|exists "buyer_email"; split; [now right; right; left
                                     | now rewrite Em]].
    destruct c as [| | | |c| |];
      try (exists "course_id"; split; [now left | now rewrite Ec]).
    destruct n as [| | | |n| |];
      try (exists "buyer_name"; split; [now right; left | now rewrite En]).
    destruct m as [| | | |m| |];
      try (exists "buyer_email";
           split; [now right; right; left | now rewrite Em]).
    exfalso. revert R. unfold OrderIn.validate, required.
    rewrite Ec, En, Em. discriminate.
  - intros (name & I & N).
    assert (V : exists errors,
               OrderIn.validate (JObject members)
               = Raise (RequestValidationError errors)).
    { assert (Q : is_invalid (required name a_str members) = true).
      { unfold required. destruct (assoc name members) as [v|];
          [|reflexivity].
        destruct v; try reflexivity. now contradiction (N s). }
      unfold OrderIn.validate.
      match goal with
      | |- exists errors, to_result ?c = _ =>
          destruct (to_result_invalid c) as (errors & _ & E);
          [|now exists errors]
      end.
      rewrite !is_invalid_apply.
      destruct I as [<- | [<- | [<- | []]]]; rewrite Q, ?orb_true_r;
        reflexivity. }
    destruct V as (errors & V). exists errors.
    unfold route_create_order, with_body. now rewrite V.
  - intros errors R. apply H in R. split.
    + unfold route_create_order, with_body. now rewrite R.
    + intros F. exact (OrderIn_validate_status _ _ F R).
Qed.

Lemma create_order_body_rules_witness :
  exists errors,
    route_create_order oid2
      (JObject [("course_id", JStr "not-an-id");
                ("buyer_email", JStr "ada@example.org")]) shop_db
    = (Raise (RequestValidationError errors), shop_db)
    /\ response_status (RequestValidationError errors) = 422.
Proof.
  destruct (proj2 (proj1 (create_order_body_rules shop_db oid2
                            [("course_id", JStr "not-an-id");
                             ("buyer_email", JStr "ada@example.org")])))
    as (errors & R).
  - exists "buyer_name". split; [right; left; reflexivity | discriminate].
  - exists errors.
    destruct (proj2 (create_order_body_rules shop_db oid2
                       [("course_id", JStr "not-an-id");
                        ("buyer_email", JStr "ada@example.org")])
                errors R) as (E & S).
    split; [exact E | now apply S].
Defined.

Lemma float_sum_snoc (l : list float) (x : float) :
  float_sum (l ++ [x]) = (float_sum l + x)%float.
Proof. unfold float_sum. rewrite fold_left_app. reflexivity. Qed.

(** X14.  In a well-formed database, an order for a stored course raises
    the sales of the summary by one and adds the price of the course, as
    stored at that time, to the sum that the revenue rounds; the counts of
    courses and lessons do not move. *)
Theorem create_order_then_summary (db : Database) (_id : oid)
  (order : OrderIn.t) (obj_id : object_id) (course : oid * CourseDoc.t) :
  well_formed db = true ->
  ObjectId (OrderIn.course_id order) = Ok obj_id ->
  find_one [("_id", QOid obj_id)] (db_course db) = Some course ->
  let before := admin_summary db in
  let after := admin_summary (snd (create_order _id order db)) in
  AdminSummary.total_sales after = AdminSummary.total_sales before + 1
  /\ AdminSummary.revenue after
     = Py.round
         (float_sum (map (fun d => Order.amount (snd d))
                       (filter is_paid (db_order db)))
          + Course.price (CourseDoc.model (snd course)))%float 2
  /\ AdminSummary.total_courses after = AdminSummary.total_courses before
  /\ AdminSummary.published_courses after
     = AdminSummary.published_courses before
  /\ AdminSummary.total_lessons after = AdminSummary.total_lessons before.
Proof.
  intros W P F.
  assert (E : snd (create_order _id order db)
              = {| db_course := db_course db;
                   db_lesson := db_lesson db;
                   db_order :=
                     db_order db
                     ++ [(_id,
                          {| Order.course_id := OrderIn.course_id order;
                             Order.buyer_name := OrderIn.buyer_name order;
                             Order.buyer_email := OrderIn.buyer_email order;
                             Order.amount :=
                               Course.price (CourseDoc.model (snd course));
                             Order.status := "paid" |})] |}).
  { unfold create_order. rewrite P, F. unfold Order.new, check_ge_float.
    pose proof F as I. apply find_some in I as [I _].
    rewrite (well_formed_course db course W I). cbn [bind_result].
    now rewrite create_document_order. }
  cbv zeta. rewrite E. unfold admin_summary, count_documents.
  cbn [db_course db_lesson db_order AdminSummary.total_sales
         AdminSummary.revenue AdminSummary.total_courses
         AdminSummary.published_courses AdminSummary.total_lessons].
  rewrite !find_paid, fold_left_add_map, filter_app.
  cbn [filter]. unfold is_paid at 2 4. cbn [snd Order.status].
  change (String.eqb "paid" "paid") with true. cbv iota.
  split; [|split; [|split; [|split]]]; try reflexivity.
  - rewrite length_app. cbn [List.length]. lia.
  - rewrite map_app. cbn [map snd Order.amount].
    f_equal. apply float_sum_snoc.
Qed.

Lemma create_order_then_summary_witness :
  AdminSummary.total_sales
    (admin_summary
       (snd (create_order oid5
               (OrderIn.mk (str oid2) "Ada" "ada@example.org") summary_db)))
  = AdminSummary.total_sales (admin_summary summary_db) + 1
  /\ AdminSummary.revenue
       (admin_summary
          (snd (create_order oid5
                  (OrderIn.mk (str oid2) "Ada" "ada@example.org")
                  summary_db)))
     = 41%float.
Proof.
  destruct (create_order_then_summary summary_db oid5
              (OrderIn.mk (str oid2) "Ada" "ada@example.org")
              (object_id_of oid2)
              (oid2, CourseDoc.model_dump (sample_course "Draft" 15.5 false))
              eq_refl eq_refl eq_refl)
    as (S & R & _).
  split; [exact S|]. rewrite R. reflexivity.
Defined.

(** ** What a request touches *)

(** X12.  Each request that writes touches one collection.  Creating,
    updating or deleting a course leaves the lessons and the orders as they
    are; creating a lesson leaves the courses and the orders; creating an
    order leaves the courses and the lessons. *)
Theorem request_touches_one_collection {L : Lax} (r : request)
  (db : Database) :
  match r with
  | POST_course _ _ | PATCH_course _ _ _ | DELETE_course _ =>
      db_lesson (serve r db) = db_lesson db
      /\ db_order (serve r db) = db_order db
  | POST_lesson _ _ _ =>
      db_course (serve r db) = db_course db
      /\ db_order (serve r db) = db_order db
  | POST_order _ _ =>
      db_course (serve r db) = db_course db
      /\ db_lesson (serve r db) = db_lesson db
  end.
Proof.
  destruct r as [_id body | utcnow cid body | cid | _id cid body | _id body];
    cbn [serve].
  - unfold route_create_course, with_body.
    destruct (Course.validate body) as [c|]; [|now split].
    unfold create_course. rewrite create_document_course. now split.
  - unfold route_update_course, with_body.
    destruct (Course.validate body); [|now split].
    unfold update_course.
    destruct (ObjectId cid); cbn [try_except]; [|now split].
    destruct (update_one _ _ _) as [n docs]. destruct (n =? 0); now split.
  - unfold delete_course.
    destruct (ObjectId cid); cbn [try_except]; [|now split].
    destruct (delete_one _ _) as [n docs]. destruct (n =? 0); now split.
  - unfold route_create_lesson, with_body.
    destruct (Lesson.validate body) as [l|]; [|now split].
    unfold create_lesson. rewrite create_document_lesson.
    now destruct (_ && _).
  - unfold route_create_order, with_body.
    destruct (OrderIn.validate body); [|now split].
    unfold create_order.
    destruct (ObjectId _); [|now split].
    destruct (find_one _ _); [|now split].
    destruct (Order.new _ _ _ _ _); [|now split].
    rewrite create_document_order. now split.
Qed.

(** X13.  A request that is answered with an error changes nothing: when a
    route that writes ends with an exception, the database after the call is
    the database before it. *)
Theorem failed_request_changes_nothing {L : Lax} (db db' : Database)
  (e : exn) :
  (forall _id body,
     route_create_course _id body db = (Raise e, db') -> db' = db)
  /\ (forall utcnow course_id body,
        route_update_course utcnow course_id body db = (Raise e, db') ->
        db' = db)
  /\ (forall course_id, delete_course course_id db = (Raise e, db') -> db' = db)
  /\ (forall _id course_id body,
        route_create_lesson _id course_id body db = (Raise e, db') ->
        db' = db)
  /\ (forall _id body,
        route_create_order _id body db = (Raise e, db') -> db' = db).
Proof.
  split; [|split; [|split; [|split]]].
  - intros _id body. unfold route_create_course, with_body.
    destruct (Course.validate body); [|now intros [= _ <-]].
    unfold create_course. rewrite create_document_course. discriminate.
  - intros utcnow cid body. unfold route_update_course, with_body.
    destruct (Course.validate body) as [c|]; [|now intros [= _ <-]].
    unfold update_course.
    destruct (ObjectId cid) as [o|]; cbn [try_except]; [|now intros [= _ <-]].
    destruct (find_one [("_id", QOid o)] (db_course db)) as [old|] eqn:F.
    + destruct (update_one_match _ (set_update_data c utcnow) _ _ F)
        as (before & after & _ & _ & U).
      rewrite U. discriminate.
    + rewrite (update_one_no_match _ _ _ F). cbn -[db_set].
      rewrite db_set_course_same. now intros [= _ <-].
  - intros cid. unfold delete_course.
    destruct (ObjectId cid) as [o|]; cbn [try_except]; [|now intros [= _ <-]].
    destruct (find_one [("_id", QOid o)] (db_course db)) as [old|] eqn:F.
    + destruct (delete_one_match _ _ _ F) as (before & after & _ & _ & U).
      rewrite U. discriminate.
    + rewrite (delete_one_no_match _ _ F). cbn -[db_set].
      rewrite db_set_course_same. now intros [= _ <-].
  - intros _id cid body. unfold route_create_lesson, with_body.
    destruct (Lesson.validate body); [|now intros [= _ <-]].
    unfold create_lesson. rewrite create_document_lesson.
    destruct (_ && _); [discriminate|]. now intros [= _ <-].
  - intros _id body. unfold route_create_order, with_body.
    destruct (OrderIn.validate body); [|now intros [= _ <-]].
    unfold create_order.
    destruct (ObjectId _); [|now intros [= _ <-]].
    destruct (find_one _ _); [|now intros [= _ <-]].
    destruct (Order.new _ _ _ _ _); [|now intros [= _ <-]].
    rewrite create_document_order. discriminate.
Qed.

Lemma failed_request_changes_nothing_witness :
  snd (route_update_course 1000 (str oid5) (title_price_body "Rocq" 59)
         summary_db)
  = summary_db.
Proof.
  exact (proj1 (proj2 (failed_request_changes_nothing summary_db
                         (snd (route_update_course 1000 (str oid5)
                                 (title_price_body "Rocq" 59) summary_db))
                         (HTTPException 404 "Course not found")))
           1000 (str oid5) (title_price_body "Rocq" 59) eq_refl).
Defined.

(** ** Databases built by the program *)

Lemma serve_orders {L : Lax} (r : request) (db : Database) :
  db_order (serve r db) = db_order db
  \/ exists _id o obj_id,
       db_order (serve r db) = db_order db ++ [(_id, o)]
       /\ Order.status o = "paid"
       /\ ObjectId (Order.course_id o) = Ok obj_id.
Proof.
  destruct r as [_id body | utcnow cid body | cid | _id cid body | _id body];
    cbn [serve].
  - left. unfold route_create_course, with_body.
    destruct (Course.validate body); [|reflexivity].
    unfold create_course. now rewrite create_document_course.
  - left. unfold route_update_course, with_body.
    destruct (Course.validate body); [|reflexivity].
    unfold update_course.
    destruct (ObjectId cid); cbn [try_except]; [|reflexivity].
    destruct (update_one _ _ _) as [n docs]. now destruct (n =? 0).
  - left. unfold delete_course.
    destruct (ObjectId cid); cbn [try_except]; [|reflexivity].
    destruct (delete_one _ _) as [n docs]. now destruct (n =? 0).
  - left. unfold route_create_lesson, with_body.
    destruct (Lesson.validate body); [|reflexivity].
    unfold create_lesson. rewrite create_document_lesson.
    now destruct (_ && _).
  - unfold route_create_order, with_body.
    destruct (OrderIn.validate body) as [order|]; [|now left].
    unfold create_order.
    destruct (ObjectId (OrderIn.course_id order)) as [o|] eqn:P; [|now left].
    destruct (find_one _ _) as [c|]; [|now left].
    unfold Order.new, check_ge_float.
    destruct (PrimFloat.leb 0 _); cbn [bind_result]; [|now left].
    rewrite create_document_order.
    right. eexists _, _, o. cbn. repeat split. exact P.
Qed.

(** X15.  In every database built from the empty one by the requests that
    write, each stored order is paid and refers to a course by a string that
    parses as an identifier; so the sales of the summary count every stored
    order. *)
Theorem reachable_orders_paid {L : Lax} (db : Database) :
  reachable db ->
  (forall d,
     In d (db_order db) ->
     Order.status (snd d) = "paid"
     /\ exists obj_id, ObjectId (Order.course_id (snd d)) = Ok obj_id)
  /\ AdminSummary.total_sales (admin_summary db)
     = Z.of_nat (List.length (db_order db)).
Proof.
  intros R.
  assert (A : forall d,
             In d (db_order db) ->
             Order.status (snd d) = "paid"
             /\ exists obj_id, ObjectId (Order.course_id (snd d)) = Ok obj_id).
  { induction R as [|r db R IH]; [intros d []|].
    intros d I.
    destruct (serve_orders r db) as [E | (_id & o & obj & E & S & P)];
      rewrite E in I.
    - now apply IH.
    - apply in_app_or in I as [I | [<- | []]]; [now apply IH|].
      split; [exact S | now exists obj]. }
  split; [exact A|].
  unfold admin_summary, count_documents. cbn [AdminSummary.total_sales].
  rewrite find_paid. f_equal. f_equal.
  clear R. induction (db_order db) as [|d l IH]; [reflexivity|].
  cbn [filter]. unfold is_paid at 1.
  rewrite (proj1 (A d (or_introl eq_refl))).
  change (String.eqb "paid" "paid") with true. cbv iota.
  f_equal. apply IH. intros x I. apply A. now right.
Qed.

Lemma reachable_orders_paid_witness :
  AdminSummary.total_sales
    (admin_summary
       (serve (POST_order oid2 (order_body (str oid1) 0.01))
          (serve (POST_course oid1 (title_price_body "Rocq" 49.99))
             empty_db)))
  = 1.
Proof.
  exact (proj2 (reachable_orders_paid _
                  (reachable_serve (POST_order oid2 (order_body (str oid1) 0.01))
                     _ (reachable_serve
                          (POST_course oid1 (title_price_body "Rocq" 49.99))
                          _ reachable_empty)))).
Defined.

(** X17.  On every database built from the empty one by the requests that
    write, reading does not end in a server error: the listings of courses
    and of lessons return, and fetching a course either returns or fails
    with the 400 or the 404 error. *)
Theorem reachable_reads_do_not_fail {L : Lax} (db : Database) :
  reachable db ->
  (forall published, exists listed, list_courses published db = Ok listed)
  /\ (forall course_id, exists listed, list_lessons course_id db = Ok listed)
  /\ (forall course_id e,
        get_course course_id db = Raise e ->
        e = HTTPException 400 "Invalid course id"
        \/ e = HTTPException 404 "Course not found").
Proof.
  intros R. pose proof (reachable_well_formed db R) as W.
  split; [|split].
  - intros published. unfold list_courses, get_documents. cbn [db_get].
    eexists. apply (for_each_ok _ course_out).
    intros d I. apply filter_In in I as [I _].
    now apply (CourseOut_new_ok db).
  - intros course_id. unfold list_lessons, get_documents. cbn [db_get].
    rewrite (for_each_ok _ lesson_out).
    + eexists. reflexivity.
    + intros d I. apply filter_In in I as [I _].
      now apply (LessonOut_new_ok db).
  - intros course_id e. unfold get_course.
    destruct (ObjectId course_id) as [o|]; cbn [try_except bind_result];
      [|intros [= <-]; now left].
    destruct (find_one _ _) as [doc|] eqn:F; [|intros [= <-]; now right].
    apply find_some in F as [I _].
    rewrite (CourseOut_new_ok db doc W I). discriminate.
Qed.

Lemma reachable_reads_do_not_fail_witness :
  exists listed,
    list_courses (Some false)
      (serve (POST_course oid1 (title_price_body "Rocq" 49.99)) empty_db)
    = Ok listed.
Proof.
  exact (proj1 (reachable_reads_do_not_fail _
                  (reachable_serve
                     (POST_course oid1 (title_price_body "Rocq" 49.99))
                     _ reachable_empty))
           (Some false)).
Defined.

(** X16.  In a well-formed database the summary agrees with the listings:
    [total_courses] is the length of the unfiltered listing,
    [published_courses] the length of the listing of published courses, and
    the published and the unpublished courses together are all the
    courses. *)
Theorem summary_agrees_with_listings (db : Database) :
  well_formed db = true ->
  exists listed published unpublished,
    list_courses None db = Ok listed
    /\ list_courses (Some true) db = Ok published
    /\ list_courses (Some false) db = Ok unpublished
    /\ AdminSummary.total_courses (admin_summary db)
       = Z.of_nat (List.length listed)
    /\ AdminSummary.published_courses (admin_summary db)
       = Z.of_nat (List.length published)
    /\ (List.length listed
        = List.length published + List.length unpublished)%nat.
Proof.
  intros W.
  exists (map course_out (db_course db)),
    (map course_out
       (filter (fun d => Bool.eqb (is_published d) true) (db_course db))),
    (map course_out
       (filter (fun d => Bool.eqb (is_published d) false) (db_course db))).
  unfold list_courses, get_documents, admin_summary, count_documents.
  cbn [db_get AdminSummary.total_courses AdminSummary.published_courses].
  rewrite !find_published, !find_all, !length_map.
  split; [|split; [|split; [|split; [|split]]]]; try reflexivity.
  - apply for_each_ok. intros d I. now apply (CourseOut_new_ok db).
  - apply for_each_ok. intros d I. apply filter_In in I as [I _].
    now apply (CourseOut_new_ok db).
  - apply for_each_ok. intros d I. apply filter_In in I as [I _].
    now apply (CourseOut_new_ok db).
  - clear W. induction (db_course db) as [|d l IH]; [reflexivity|].
    cbn [filter List.length].
    destruct (is_published d); cbn [Bool.eqb List.length]; lia.
Qed.

Lemma summary_agrees_with_listings_witness :
  exists listed published unpublished,
    list_courses None summary_db = Ok listed
    /\ list_courses (Some true) summary_db = Ok published
    /\ list_courses (Some false) summary_db = Ok unpublished
    /\ List.length listed = 2%nat
    /\ List.length published = 1%nat
    /\ List.length unpublished = 1%nat.
Proof.
  destruct (summary_agrees_with_listings summary_db eq_refl)
    as (l & p & u & Hl & Hp & Hu & _).
  exists l, p, u. repeat split; try assumption.
  - assert (E : match list_courses None summary_db with
                | Ok x => List.length x
                | Raise _ => O
                end = 2%nat) by reflexivity.
    now rewrite Hl in E.
  - assert (E : match list_courses (Some true) summary_db with
                | Ok x => List.length x
                | Raise _ => O
                end = 1%nat) by reflexivity.
    now rewrite Hp in E.
  - assert (E : match list_courses (Some false) summary_db with
                | Ok x => List.length x
                | Raise _ => O
                end = 1%nat) by reflexivity.
    now rewrite Hu in E.
Defined.

(** ** The diagnostic route *)

(** [s[:n]] is the first [n] characters of [s]. *)
Lemma slice_to_first_chars (n : nat) (s : string) :
  first_chars n s (slice_to n s).
Proof.
  unfold first_chars. revert n.
  induction s as [|c s IH]; intros n.
  - exists EmptyString. cbn. repeat split. now rewrite Nat.min_0_r.
  - cbn [slice_to len]. destruct (is_continuation c) eqn:C.
    + destruct (IH n) as (rest & E & Ln & B).
      exists rest. cbn [String.append len]. rewrite C, <- E.
      repeat split; assumption.
    + destruct n as [|n].
      * exists (String c s). cbn. repeat split. exact C.
      * destruct (IH n) as (rest & E & Ln & B).
        exists rest. cbn [String.append len]. rewrite C, <- E, Ln.
        repeat split; assumption.
Qed.

(** A message of 82 characters, of which the 80th takes two bytes, is cut
    after that character. *)
Example slice_to_cuts_after_80_characters :
  slice_to 80
    "aaaaaaaaaaaaaaaaaaaaaaaaaaaaaaaaaaaaaaaaaaaaaaaaaaaaaaaaaaaaaaaaaaaaaaaaaaaaaaaébc"
  = "aaaaaaaaaaaaaaaaaaaaaaaaaaaaaaaaaaaaaaaaaaaaaaaaaaaaaaaaaaaaaaaaaaaaaaaaaaaaaaaé"
  /\ slice_to 80 "timed out" = "timed out".
Proof. split; reflexivity. Qed.

(** X18.  The diagnostic reports at most ten collection names, the first
    ones of the listing.  When the listing raises, the route still answers:
    the connection is reported as connected, with the name of the database,
    no collection is reported, and the message shown ends with the first 80
    characters of the text of the exception, or all of the text when it has
    fewer.  Without a connection the answer does not depend on the
    environment. *)
Theorem test_database_report (db : option Connection)
  (DATABASE_URL : option string) :
  let response := test_database db DATABASE_URL in
  (List.length (Diagnostic.collections response) <= 10)%nat
  /\ (forall c names,
        db = Some c ->
        list_collection_names c = Returned names ->
        Diagnostic.collections response = firstn 10 names
        /\ ((List.length names <= 10)%nat ->
            Diagnostic.collections response = names))
  /\ (forall c text,
        db = Some c ->
        list_collection_names c = Raised text ->
        Diagnostic.collections response = []
        /\ Diagnostic.connection_status response = "Connected"
        /\ Diagnostic.database_name response = Some (name c)
        /\ exists shown,
             Diagnostic.database response
             = String.append "⚠️  Connected but Error: " shown
             /\ first_chars 80 text shown)
  /\ (db = None -> response = test_database None None).
Proof.
  cbv zeta. split; [|split; [|split]].
  - unfold test_database. destruct db as [c|]; [|cbn; lia].
    destruct (list_collection_names c) as [names|text]; [|cbn; lia].
    unfold Diagnostic.set_collections. cbn [Diagnostic.collections].
    rewrite length_firstn. lia.
  - intros c names -> R. unfold test_database. rewrite R.
    unfold Diagnostic.set_collections. cbn [Diagnostic.collections].
    split; [reflexivity|]. intros B. now apply firstn_all2.
  - intros c text -> R. unfold test_database. rewrite R.
    cbn [Diagnostic.collections Diagnostic.connection_status
           Diagnostic.database_name Diagnostic.database
           Diagnostic.set_database Diagnostic.set_database_url
           Diagnostic.set_database_name Diagnostic.set_connection_status
           Diagnostic.backend Diagnostic.database_url].
    split; [reflexivity|]. split; [reflexivity|]. split; [reflexivity|].
    exists (slice_to 80 text).
    split; [reflexivity | apply slice_to_first_chars].
  - now intros ->.
Qed.

Lemma test_database_report_witness :
  Diagnostic.collections
    (test_database
       (Some (mk_connection "shop"
                (Returned ["a"; "b"; "c"; "d"; "e"; "f"; "g"; "h"; "i"; "j";
                           "k"; "l"])))
       (Some "mongodb://localhost"))
  = ["a"; "b"; "c"; "d"; "e"; "f"; "g"; "h"; "i"; "j"]
  /\ Diagnostic.connection_status
       (test_database (Some (mk_connection "shop" (Raised "timed out"))) None)
     = "Connected".
Proof.
  split.
  - destruct (test_database_report
                (Some (mk_connection "shop"
                         (Returned ["a"; "b"; "c"; "d"; "e"; "f"; "g"; "h";
                                    "i"; "j"; "k"; "l"])))
                (Some "mongodb://localhost")) as (_ & R & _).
    exact (proj1 (R _ _ eq_refl eq_refl)).
  - destruct (test_database_report
                (Some (mk_connection "shop" (Raised "timed out"))) None)
      as (_ & _ & E & _).
    exact (proj1 (proj2 (E _ _ eq_refl eq_refl))).
Defined.

(** ** Identifiers of the stored courses *)

(** X19.  In a well-formed database whose courses have pairwise distinct
    identifiers, every course of the listing can be fetched under the [id]
    the listing shows, and the answer is the listed course. *)
Theorem listed_course_can_be_fetched (db : Database)
  (listed : list CourseOut.t) (x : CourseOut.t) :
  well_formed db = true ->
  NoDup (map fst (db_course db)) ->
  list_courses None db = Ok listed ->
  In x listed ->
  get_course (CourseOut.id x) db = Ok x.
Proof.
  intros W U Hl I.
  assert (E : list_courses None db = Ok (map course_out (db_course db))).
  { unfold list_courses, get_documents. cbn [db_get]. rewrite find_all.
    apply for_each_ok. intros d Id. now apply (CourseOut_new_ok db). }
  rewrite E in Hl. injection Hl as <-.
  apply in_map_iff in I as (d & <- & Id).
  unfold get_course. cbn [course_out CourseOut.id].
  rewrite (proj1 (ObjectId_str (fst d))). cbn [try_except bind_result].
  rewrite (find_one_present _ d U Id).
  now apply (CourseOut_new_ok db).
Qed.

Lemma listed_course_can_be_fetched_witness :
  get_course (str oid2) summary_db
  = Ok (course_out
          (oid2, CourseDoc.model_dump (sample_course "Draft" 15.5 false))).
Proof.
  apply (listed_course_can_be_fetched summary_db
           (map course_out (db_course summary_db))
           (course_out
              (oid2, CourseDoc.model_dump (sample_course "Draft" 15.5 false)))).
  - reflexivity.
  - repeat constructor; cbn; intuition discriminate.
  - reflexivity.
  - right. left. reflexivity.
Defined.

(** X20.  The requests keep the identifiers of the courses pairwise
    distinct, as long as a new course gets an identifier that no stored
    course has: an update keeps every identifier where it is, a deletion
    removes one, and lessons and orders leave the courses alone. *)
Theorem serve_keeps_course_ids_distinct {L : Lax} (r : request)
  (db : Database) :
  NoDup (map fst (db_course db)) ->
  (forall _id body,
     r = POST_course _id body -> ~ In _id (map fst (db_course db))) ->
  NoDup (map fst (db_course (serve r db))).
Proof.
  intros U Fresh.
  destruct r as [_id body | utcnow cid body | cid | _id cid body | _id body];
    cbn [serve].
  - unfold route_create_course, with_body.
    destruct (Course.validate body) as [c|]; [|exact U].
    unfold create_course. rewrite create_document_course.
    cbn [snd db_course]. rewrite map_app. cbn [map fst].
    apply NoDup_app; [exact U | repeat constructor; intros [] |].
    intros a Ia [<- | []]. exact (Fresh _id body eq_refl Ia).
  - unfold route_update_course, with_body.
    destruct (Course.validate body) as [c|]; [|exact U].
    unfold update_course.
    destruct (ObjectId cid) as [o|]; cbn [try_except]; [|exact U].
    pose proof (update_one_ids [("_id", QOid o)] (set_update_data c utcnow)
                  (db_course db)) as K.
    destruct (update_one _ _ _) as [n docs]. cbn [snd] in K.
    destruct (n =? 0); cbn [snd db_set db_course]; now rewrite K.
  - unfold delete_course.
    destruct (ObjectId cid) as [o|]; cbn [try_except]; [|exact U].
    destruct (find_one [("_id", QOid o)] (db_course db)) as [old|] eqn:F.
    + destruct (delete_one_match _ _ _ F) as (before & after & S & _ & D).
      rewrite D. cbn [Z.eqb snd db_set db_course].
      rewrite S, map_app in U. cbn [map] in U.
      apply NoDup_remove_1 in U. now rewrite map_app.
    + rewrite (delete_one_no_match _ _ F). cbn -[db_set].
      now rewrite db_set_course_same.
  - unfold route_create_lesson, with_body.
    destruct (Lesson.validate body); [|exact U].
    unfold create_lesson. rewrite create_document_lesson.
    now destruct (_ && _).
  - unfold route_create_order, with_body.
    destruct (OrderIn.validate body); [|exact U].
    unfold create_order.
    destruct (ObjectId _); [|exact U].
    destruct (find_one _ _); [|exact U].
    destruct (Order.new _ _ _ _ _); [|exact U].
    now rewrite create_document_order.
Qed.

Lemma serve_keeps_course_ids_distinct_witness :
  NoDup (map fst (db_course (serve (DELETE_course (str oid1)) summary_db))).
Proof.
  apply serve_keeps_course_ids_distinct.
  - repeat constructor; cbn; intuition discriminate.
  - intros _id body E. discriminate E.
Defined.
